(** * BrahmaMatch backend: phone identity, session tokens and profiles

    A shallow embedding of the Python sources
      - app/utils.py                    (normalize_phone, create_jwt_token, decode_jwt_token)
      - app/services/user_service.py    (ensure_user_on_send, create_or_attach_user_id)
      - app/services/profile_service.py (create_or_update_profile, add_profile_image,
                                         add_gallery_image)
      - app/routes/auth.py, app/routes/users.py and the stand-alone entry point
        main.py (anuj.py repeats the code of the services and of main.py inline)
    together with the properties the specification states about them.

    Conventions.
      - A Python [str] is a sequence of Unicode code points: [list N].
      - A timestamp is a whole number of seconds since the epoch: [Z].
      - A MongoDB collection with a unique index on its key field is a [gmap]
        from the key to the document.
      - Every awaited store call is one atomic step; sequential code is written
        as explicit state passing, concurrent invocations as a step machine
        over the shared store. *)

From Stdlib Require Import ZArith NArith Lia Ascii String.
From stdpp Require Import gmap strings list fin_maps.

#[local] Open Scope N_scope.

(* ===================================================================== *)
(** ** Python strings *)
(* ===================================================================== *)

Module PyStr.

(** A [str] value: its code points, in order. *)
Definition str : Type := list N.

(** The [str] denoted by an ASCII literal of the source. *)
Fixpoint py (s : string) : str :=
  match s with
  | EmptyString => []
  | String a s' => N_of_ascii a :: py s'
  end.

(** [ch.isspace()]: the code points CPython treats as whitespace
    (bidirectional class WS, B or S, or category Zs).  [str.strip()]
    without an argument removes exactly these. *)
Definition isspace (c : N) : bool :=
  ((9 <=? c) && (c <=? 13)) || ((28 <=? c) && (c <=? 32))
  || (c =? 133) || (c =? 160) || (c =? 5760)
  || ((8192 <=? c) && (c <=? 8202))
  || (c =? 8232) || (c =? 8233) || (c =? 8239) || (c =? 8287)
  || (c =? 12288).

(** [s.lstrip()] *)
Fixpoint lstrip (s : str) : str :=
  match s with
  | [] => []
  | c :: s' => if isspace c then lstrip s' else s
  end.

(** [s.rstrip()] *)
Definition rstrip (s : str) : str := rev (lstrip (rev s)).

(** [s.strip()] *)
Definition strip (s : str) : str := rstrip (lstrip s).

(** [s.startswith(p)] *)
Definition startswith (p s : str) : bool := bool_decide (take (length p) s = p).

(** The ASCII decimal digits, '0' .. '9'. *)
Definition ascii_digit (c : N) : bool := (48 <=? c) && (c <=? 57).

Section Digits.
(** [ch.isdigit()] on the code points from 128 upwards is decided by the
    Unicode character database that ships with the interpreter; that
    table is not part of the repository and is taken as a parameter.  On
    ASCII, [isdigit] is the range test '0' .. '9'. *)
Variable unicode_isdigit : N → bool.

Definition isdigit (c : N) : bool :=
  if c <? 128 then ascii_digit c else unicode_isdigit c.

(** The digit characters of [s], in order: the [join] over [ch.isdigit()]. *)
Definition digits_of (s : str) : str := List.filter isdigit s.
End Digits.

(** A table with no digit outside ASCII ... *)
Definition no_unicode_digits : N → bool := λ _, false.

(** ... and one with the Arabic-Indic digits U+0660 .. U+0669. *)
Definition arabic_indic_digits : N → bool := λ c, (1632 <=? c) && (c <=? 1641).

(** [s.lower()] on ASCII input: the letters 'A' .. 'Z' are mapped to
    'a' .. 'z'. *)
Definition ascii_lower (s : str) : str :=
  map (λ c, if (65 <=? c) && (c <=? 90) then c + 32 else c) s.

(** Only ASCII code points. *)
Definition is_ascii (s : str) : Prop := Forall (λ c, c < 128) s.

End PyStr.

Import PyStr.

(* ===================================================================== *)
(** ** app/utils.py: normalize_phone *)
(* ===================================================================== *)

Module Utils.

Section NormalizePhone.
Variable unicode_isdigit : N → bool.

(** [def normalize_phone(phone: str) -> str] *)
Definition normalize_phone (phone : str) : str :=
  let phone := strip phone in
  if startswith (py "+") phone then phone
  else
    let digits := digits_of unicode_isdigit phone in
    if (length digits =? 10)%nat then py "+91" ++ digits
    else if (length digits =? 11)%nat && startswith (py "0") digits
         then py "+91" ++ drop 1 digits
         else py "+" ++ digits.
End NormalizePhone.

(** Timestamps: seconds since the epoch, the resolution of the numeric
    dates a token carries. *)
Definition time : Type := Z.

(** The payload of a token: the three claims the service writes. *)
Record claims : Type := Claims {
  sub : option str;
  iat : option time;
  exp : option time;
}.

(** The exceptions [jwt.decode] raises. *)
Inductive jwt_error : Type :=
| ExpiredSignatureError
| ImmatureSignatureError
| InvalidSignatureError
| InvalidAlgorithmError
| DecodeError.

Inductive decoded : Type :=
| Decoded (payload : claims)
| JwtRaised (e : jwt_error).

Section Tokens.
(** The token library (package [jwt]) is a third-party dependency:
    [jwt_encode payload key algorithm] and
    [jwt_decode token key algorithms] evaluated when the clock reads
    [now]. *)
Variable token : Type.
Variable jwt_encode : claims → str → str → token.
Variable jwt_decode : token → str → list str → time → decoded.

(** app/config.py *)
Variable JWT_SECRET : str.
Variable JWT_ALGORITHM : str.
Variable JWT_EXPIRES_MINUTES : Z.

(** [def create_jwt_token(phone: str) -> str], called when the clock
    reads [now]. *)
Definition create_jwt_token (phone : str) (now : time) : token :=
  let payload :=
    {| sub := Some phone;
       iat := Some now;
       exp := Some (now + 60 * JWT_EXPIRES_MINUTES)%Z |} in
  jwt_encode payload JWT_SECRET JWT_ALGORITHM.

(** [def decode_jwt_token(token: str)], called when the clock reads
    [now]. *)
Definition decode_jwt_token (tok : token) (now : time) : decoded :=
  jwt_decode tok JWT_SECRET [JWT_ALGORITHM] now.
End Tokens.

End Utils.

(* ===================================================================== *)
(** ** A symbolic token library *)
(* ===================================================================== *)

(** Modelled from the spec: the functions [jwt.encode] and [jwt.decode] come
    from the PyJWT package, which the repository only imports.  The spec
    says of them that issuing "signs a payload ... using a symmetric secret"
    and that validation "verifies signature and expiry".  In this model a
    token is either a payload together with the algorithm and the key that
    signed it, or a string that is no token at all; a signature verifies
    exactly when the keys agree. *)
Module SymbolicJwt.
Import Utils.

Inductive token : Type :=
| Signed (alg : str) (payload : claims) (key : str)
| Garbage (raw : str).

Definition encode (payload : claims) (key : str) (alg : str) : token :=
  Signed alg payload key.

Definition decode (tok : token) (key : str) (algorithms : list str)
    (now : time) : decoded :=
  match tok with
  | Garbage _ => JwtRaised DecodeError
  | Signed alg payload k =>
      if negb (bool_decide (alg ∈ algorithms)) then JwtRaised InvalidAlgorithmError
      else if negb (bool_decide (k = key)) then JwtRaised InvalidSignatureError
      else if match iat payload with Some i => (now <? i)%Z | None => false end
           then JwtRaised ImmatureSignatureError
      else if match exp payload with Some e => (e <=? now)%Z | None => false end
           then JwtRaised ExpiredSignatureError
      else Decoded payload
  end.
End SymbolicJwt.

(* ===================================================================== *)
(** ** app/db.py: the Users collection *)
(* ===================================================================== *)

Module Db.
Import Utils.

(** A document of the Users collection.  [phone] is always present; every
    other field may be missing.  The [_id] field plays no role. *)
Record user_doc : Type := UserDoc {
  phone : str;
  user_id : option str;
  is_verified : option bool;
  created_at : option time;
  last_otp_sent_at : option time;
  last_login : option time;
}.

#[global] Instance user_doc_eq_dec : EqDecision user_doc.
Proof. solve_decision. Defined.

Definition set_user_id (v : str) (d : user_doc) : user_doc :=
  {| phone := phone d; user_id := Some v; is_verified := is_verified d;
     created_at := created_at d; last_otp_sent_at := last_otp_sent_at d;
     last_login := last_login d |}.

Definition set_last_otp_sent_at (v : time) (d : user_doc) : user_doc :=
  {| phone := phone d; user_id := user_id d; is_verified := is_verified d;
     created_at := created_at d; last_otp_sent_at := Some v;
     last_login := last_login d |}.

Definition set_verified_login (v : time) (d : user_doc) : user_doc :=
  {| phone := phone d; user_id := user_id d; is_verified := Some true;
     created_at := created_at d; last_otp_sent_at := last_otp_sent_at d;
     last_login := Some v |}.

(** [users_col] with [create_index("phone", unique=True)]: at most one
    document per phone. *)
Abbreviation users_col := (gmap str user_doc).

(** A write either succeeds or is refused by a unique index. *)
Inductive write (A : Type) : Type :=
| Written (col : A)
| DuplicateKeyError.
Arguments Written {A} col.
Arguments DuplicateKeyError {A}.

(** [create_index("user_id", unique=True, sparse=True)]: does a document
    stored under another phone already carry [uid]? *)
Definition user_id_taken (col : users_col) (uid : str) (self : str) : bool :=
  bool_decide (map_Exists (λ p d, p ≠ self ∧ user_id d = Some uid) col).

(** [users_col.find_one({"phone": phone})] *)
Definition find_one (col : users_col) (p : str) : option user_doc := col !! p.

(** [users_col.insert_one(doc)] *)
Definition insert_one (col : users_col) (d : user_doc) : write users_col :=
  match col !! phone d with
  | Some _ => DuplicateKeyError
  | None =>
      match user_id d with
      | Some uid =>
          if user_id_taken col uid (phone d) then DuplicateKeyError
          else Written (<[phone d := d]> col)
      | None => Written (<[phone d := d]> col)
      end
  end.

(** [users_col.update_one({"phone": p}, {"$set": {"user_id": uid}})] *)
Definition update_one_set_user_id (col : users_col) (p uid : str) : write users_col :=
  match col !! p with
  | None => Written col
  | Some d =>
      if user_id_taken col uid p then DuplicateKeyError
      else Written (<[p := set_user_id uid d]> col)
  end.

(** [users_col.update_one({"phone": p},
      {"$set": {"is_verified": True, "last_login": now}})] *)
Definition update_one_set_verified (col : users_col) (p : str) (now : time) : users_col :=
  match col !! p with
  | None => col
  | Some d => <[p := set_verified_login now d]> col
  end.

(** [users_col.update_one({"phone": p},
      {"$setOnInsert": on_insert, "$set": ...}, upsert=True)]: the [$set] part
    is applied to the stored document, or to [on_insert] when none matches. *)
Definition update_one_upsert (col : users_col) (p : str) (on_insert : user_doc)
    (set : user_doc → user_doc) : users_col :=
  match col !! p with
  | Some d => <[p := set d]> col
  | None => <[p := set on_insert]> col
  end.

(** [users_col.find_one({"user_id": uid})]: a stored document that carries
    [uid], with the phone it is stored under.  The unique index on [user_id]
    leaves at most one such document. *)
Definition find_one_by_user_id (col : users_col) (uid : str) : option (str * user_doc) :=
  snd <$> list_find (λ kv, user_id kv.2 = Some uid) (map_to_list col).

(** [users_col.delete_one({"user_id": uid})]: the [deleted_count] and the
    collection afterwards. *)
Definition delete_one_by_user_id (col : users_col) (uid : str) : nat * users_col :=
  match find_one_by_user_id col uid with
  | Some (p, _) => (1%nat, delete p col)
  | None => (0%nat, col)
  end.

(** What the document of a phone keeps from one state of the collection to
    a later one: its phone, an assigned [user_id], the verified flag once
    set, and [created_at] once set. *)
Definition keeps (d d' : user_doc) : Prop :=
  phone d' = phone d
  ∧ (∀ uid, user_id d = Some uid → user_id d' = Some uid)
  ∧ (is_verified d = Some true → is_verified d' = Some true)
  ∧ (∀ t, created_at d = Some t → created_at d' = Some t).

(** What the two unique indexes and the writes of the service maintain:
    a document is stored under its own phone, no two documents carry the
    same [user_id], and a verified document has a [last_login]. *)
Definition consistent (col : users_col) : Prop :=
  (∀ p d, col !! p = Some d → phone d = p)
  ∧ (∀ p q d e uid, col !! p = Some d → col !! q = Some e →
       user_id d = Some uid → user_id e = Some uid → p = q)
  ∧ (∀ p d, col !! p = Some d → is_verified d = Some true → is_Some (last_login d)).

End Db.

(* ===================================================================== *)
(** ** app/services/user_service.py *)
(* ===================================================================== *)

Module UserService.
Import Utils Db.

(** [async def ensure_user_on_send(phone, now)] *)
Definition ensure_user_on_send (p : str) (now : time) (col : users_col) : users_col :=
  update_one_upsert col p
    {| phone := p; user_id := None; is_verified := Some false;
       created_at := Some now; last_otp_sent_at := None; last_login := None |}
    (set_last_otp_sent_at now).

(** The document built when no record is found. *)
Definition new_user (p : str) (now : time) (gen_id : str) : user_doc :=
  {| phone := p; user_id := Some gen_id; is_verified := Some true;
     created_at := Some now; last_otp_sent_at := None; last_login := Some now |}.

(** [async def create_or_attach_user_id(phone, now)], run without
    interference.  [gen_id] is the value of [str(ObjectId())]; the function
    evaluates it at most once. *)
Definition create_or_attach_user_id (p : str) (now : time) (gen_id : str)
    (col : users_col) : option user_doc * users_col :=
  match find_one col p with
  | None =>
      let new_user := new_user p now gen_id in
      match insert_one col new_user with
      | Written col' => (Some new_user, col')
      | DuplicateKeyError => (find_one col p, col)
      end
  | Some user_doc =>
      let col1 :=
        match user_id user_doc with
        | None =>
            match update_one_set_user_id col p gen_id with
            | Written col' => col'
            | DuplicateKeyError => col
            end
        | Some _ => col
        end in
      let col2 := update_one_set_verified col1 p now in
      (find_one col2 p, col2)
  end.

(** *** The same function as a step machine

    One step is one awaited store call.  The program counter says which call
    comes next. *)
Inductive pc : Type :=
| AtFind                       (* user_doc = find_one(...)                       *)
| AtInsert                     (* insert_one(new_user)                           *)
| AtFindAfterInsertFailed      (* except DuplicateKeyError: find_one(...)        *)
| AtSetUserId                  (* update_one(..., {"$set": {"user_id": gen_id}}) *)
| AtFindAfterCollision         (* except DuplicateKeyError: find_one(...)        *)
| AtSetVerified                (* update_one(..., is_verified, last_login)       *)
| AtFinalFind                  (* return find_one(...)                           *)
| Returned (r : option user_doc).

(** An invocation in flight: its arguments, its generated id and where it
    stands. *)
Record call : Type := Call {
  c_phone : str;
  c_now : time;
  c_gen_id : str;
  c_pc : pc;
}.

Definition start (p : str) (now : time) (gen_id : str) : call :=
  {| c_phone := p; c_now := now; c_gen_id := gen_id; c_pc := AtFind |}.

Definition goto (c : call) (l : pc) : call :=
  {| c_phone := c_phone c; c_now := c_now c; c_gen_id := c_gen_id c; c_pc := l |}.

Definition step (c : call) (col : users_col) : call * users_col :=
  match c_pc c with
  | AtFind =>
      match find_one col (c_phone c) with
      | None => (goto c AtInsert, col)
      | Some user_doc =>
          match user_id user_doc with
          | None => (goto c AtSetUserId, col)
          | Some _ => (goto c AtSetVerified, col)
          end
      end
  | AtInsert =>
      let new_user := new_user (c_phone c) (c_now c) (c_gen_id c) in
      match insert_one col new_user with
      | Written col' => (goto c (Returned (Some new_user)), col')
      | DuplicateKeyError => (goto c AtFindAfterInsertFailed, col)
      end
  | AtFindAfterInsertFailed =>
      (goto c (Returned (find_one col (c_phone c))), col)
  | AtSetUserId =>
      match update_one_set_user_id col (c_phone c) (c_gen_id c) with
      | Written col' => (goto c AtSetVerified, col')
      | DuplicateKeyError => (goto c AtFindAfterCollision, col)
      end
  | AtFindAfterCollision => (goto c AtSetVerified, col)
  | AtSetVerified =>
      (goto c AtFinalFind, update_one_set_verified col (c_phone c) (c_now c))
  | AtFinalFind => (goto c (Returned (find_one col (c_phone c))), col)
  | Returned _ => (c, col)
  end.

(** Several invocations over one store.  A schedule names, step by step,
    the invocation that performs its next store call. *)
Record system : Type := System {
  calls : list call;
  store : users_col;
}.

Definition step_call (i : nat) (s : system) : system :=
  match calls s !! i with
  | None => s
  | Some c =>
      let '(c', col') := step c (store s) in
      {| calls := <[i := c']> (calls s); store := col' |}
  end.

Definition run (schedule : list nat) (s : system) : system :=
  foldl (λ s i, step_call i s) s schedule.

(** One invocation on its own, for [n] store calls. *)
Fixpoint run_call (n : nat) (c : call) (col : users_col) : call * users_col :=
  match n with
  | O => (c, col)
  | S n' => let '(c', col') := step c col in run_call n' c' col'
  end.

(** What invocation [i] returned, if it has. *)
Definition result (s : system) (i : nat) : option (option user_doc) :=
  match calls s !! i with
  | Some c => match c_pc c with Returned r => Some r | _ => None end
  | None => None
  end.

(** The [user_id] stored for a phone. *)
Definition stored_user_id (col : users_col) (p : str) : option str :=
  d ← col !! p; user_id d.

(** *** The race for a phone without a record

    The predicates below describe the systems reachable when every
    invocation is for the same phone [p] and the store held no record for
    [p] at the start: the record, once there, carries a [user_id]; an
    invocation stands before one of its two first calls as long as there is
    no record, and never at the assignment of a [user_id]; whatever it
    returned carries the stored [user_id]. *)
Definition slot_ok (slot : option user_doc) : Prop :=
  match slot with
  | None => True
  | Some d => is_Some (user_id d)
  end.

Definition pc_ok (slot : option user_doc) (l : pc) : Prop :=
  match slot with
  | None => l = AtFind ∨ l = AtInsert
  | Some d =>
      match l with
      | AtSetUserId | AtFindAfterCollision => False
      | Returned r => ∃ d', r = Some d' ∧ user_id d' = user_id d
      | _ => True
      end
  end.

(** The record for the phone is kept, with its [user_id]. *)
Definition slot_kept (before after : option user_doc) : Prop :=
  match before with
  | None => True
  | Some d => ∃ d', after = Some d' ∧ user_id d' = user_id d
  end.

(** No record of another phone carries the id this invocation generated. *)
Definition fresh_id (p : str) (col : users_col) (c : call) : Prop :=
  ∀ q d, q ≠ p → col !! q = Some d → user_id d ≠ Some (c_gen_id c).

Definition race_inv (p : str) (s : system) : Prop :=
  slot_ok (store s !! p)
  ∧ Forall (λ c, c_phone c = p ∧ fresh_id p (store s) c
                 ∧ pc_ok (store s !! p) (c_pc c)) (calls s).

(** *** Requests served one after the other *)
Inductive request : Type :=
| Send (p : str) (now : time)
| Verify (p : str) (now : time) (gen_id : str).

Definition serve (r : request) (col : users_col) : users_col :=
  match r with
  | Send p now => ensure_user_on_send p now col
  | Verify p now gen_id => (create_or_attach_user_id p now gen_id col).2
  end.

Definition serve_all (rs : list request) (col : users_col) : users_col :=
  foldl (λ col r, serve r col) col rs.

End UserService.

(* ===================================================================== *)
(** ** HTTP handlers *)
(* ===================================================================== *)

Module Http.

(** What a handler hands back to the framework: a body, or an
    [HTTPException(status_code, detail)].  An exception no handler catches
    becomes the framework's 500 answer. *)
Inductive response (A : Type) : Type :=
| Body (a : A)
| HTTPException (status_code : nat) (detail : string).
Arguments Body {A} a.
Arguments HTTPException {A} status_code detail.

Definition internal_server_error {A : Type} : response A :=
  HTTPException 500 "Internal Server Error".

(** What the [try] block of a [get_current_user] can raise: an exception of
    the token library, or an [HTTPException] raised inside the block. *)
Inductive raised : Type :=
| RaisedJwt (e : Utils.jwt_error)
| RaisedHTTP (status_code : nat) (detail : string).

End Http.

(** app/services/twilio_service.py and app/routes/auth.py *)
Module Auth.
Import Utils Db UserService Http.

(** What [verification_checks.create(to=phone, code=code)] does: it raises,
    or it returns an object whose [status] attribute, if it has one, is a
    string. *)
Inductive check_outcome : Type :=
| CheckRaised (message : string)
| CheckReturned (status : option str).

(** The body of a successful [/auth/verify-otp] answer. *)
Record verified (token : Type) : Type := Verified {
  v_status : str;
  v_token : token;
  v_user_id : str;
}.
Arguments Verified {token} v_status v_token v_user_id.

Section Routes.
(** The provider, the interpreter's tables and the token library. *)
Variable unicode_isdigit : N → bool.
(** [s.lower()] *)
Variable lower : str → str.
(** [twilio_client and TW_VERIFY_SID] *)
Variable twilio_configured : bool.
Variable verification_checks_create : str → str → check_outcome.
Variable token : Type.
Variable jwt_encode : claims → str → str → token.
Variable JWT_SECRET JWT_ALGORITHM : str.
Variable JWT_EXPIRES_MINUTES : Z.

(** [def check_verification_code(phone, code)] *)
Definition check_verification_code (p code : str) : check_outcome :=
  if negb twilio_configured then CheckRaised "Twilio not configured"
  else verification_checks_create p code.

(** [getattr(check, "status", <empty string>).lower() != "approved"] *)
Definition not_approved (status : option str) : bool :=
  negb (bool_decide (lower (default [] status) = py "approved")).

(** A provider outcome other than approved: the call raised, or the status
    it returned fails the test above. *)
Definition rejected (o : check_outcome) : bool :=
  match o with
  | CheckRaised _ => true
  | CheckReturned status => not_approved status
  end.

(** [async def verify_otp(payload: VerifyOTPIn)] of app/routes/auth.py,
    called when the clock reads [now]; [gen_id] is what [str(ObjectId())]
    yields inside [create_or_attach_user_id]. *)
Definition verify_otp (payload_phone payload_code : str) (now : time)
    (gen_id : str) (col : users_col) : response (verified token) * users_col :=
  let p := normalize_phone unicode_isdigit payload_phone in
  match check_verification_code p payload_code with
  | CheckRaised e => (HTTPException 400 ("Verification failed: " ++ e), col)
  | CheckReturned status =>
      if not_approved status
      then (HTTPException 400 "Invalid OTP or verification not approved.", col)
      else
        let '(created_user, col') := create_or_attach_user_id p now gen_id col in
        let tok := create_jwt_token token jwt_encode JWT_SECRET JWT_ALGORITHM
                     JWT_EXPIRES_MINUTES p now in
        match created_user ≫= user_id with
        | Some uid => (Body (Verified (py "approved") tok uid), col')
        | None => (internal_server_error, col')
        end
  end.

End Routes.

(** What [verifications.create(to=phone, channel="sms")] does: it raises, or
    it returns an object whose [status] attribute, if it has one, is a
    string. *)
Inductive send_outcome : Type :=
| SendRaised (message : string)
| SendReturned (status : option str).

(** The body of a [/auth/send-otp] answer. *)
Record sent : Type := Sent {
  s_status : str;
  s_message : string;
}.

Section SendRoute.
Variable unicode_isdigit : N → bool.
Variable twilio_configured : bool.
Variable verifications_create : str → send_outcome.

(** [def send_verification_sms(phone)] *)
Definition send_verification_sms (p : str) : send_outcome :=
  if negb twilio_configured then SendRaised "Twilio not configured"
  else verifications_create p.

(** [async def send_otp(payload: SendOTPIn)] of app/routes/auth.py, called
    when the clock reads [now]. *)
Definition send_otp (payload_phone : str) (now : time) (col : users_col)
    : response sent * users_col :=
  let p := normalize_phone unicode_isdigit payload_phone in
  let col' := ensure_user_on_send p now col in
  match send_verification_sms p with
  | SendRaised e => (HTTPException 500 ("Twilio error: " ++ e), col')
  | SendReturned status =>
      (Body {| s_status := default (py "unknown") status;
               s_message := "OTP send attempted." |}, col')
  end.

End SendRoute.
End Auth.

(** The stand-alone entry point main.py *)
Module Main.
Import Utils Db Http Auth.

(** The body of a successful [/auth/verify-otp] answer of main.py. *)
Record verified (token : Type) : Type := Verified {
  v_status : str;
  v_token : token;
}.
Arguments Verified {token} v_status v_token.

Section Routes.
Variable unicode_isdigit : N → bool.
Variable lower : str → str.
(** [twilio_client] *)
Variable twilio_client : bool.
Variable verification_checks_create : str → str → check_outcome.
Variable token : Type.
Variable jwt_encode : claims → str → str → token.
Variable jwt_decode : token → str → list str → time → decoded.
Variable JWT_SECRET JWT_ALGORITHM : str.
Variable JWT_EXPIRES_MINUTES : Z.

(** [async def verify_otp(payload: VerifyOTPIn)] of main.py *)
Definition verify_otp (payload_phone payload_code : str) (now : time)
    (col : users_col) : response (verified token) * users_col :=
  let p := normalize_phone unicode_isdigit payload_phone in
  if negb twilio_client
  then (HTTPException 500 "Twilio client not configured on server.", col)
  else
    match verification_checks_create p payload_code with
    | CheckRaised e => (HTTPException 400 ("Verification failed: " ++ e), col)
    | CheckReturned status =>
        if not_approved lower status
        then (HTTPException 400 "Invalid OTP or verification not approved.", col)
        else
          let col' :=
            update_one_upsert col p
              {| phone := p; user_id := None; is_verified := None;
                 created_at := None; last_otp_sent_at := None; last_login := None |}
              (set_verified_login now) in
          let tok := create_jwt_token token jwt_encode JWT_SECRET JWT_ALGORITHM
                       JWT_EXPIRES_MINUTES p now in
          (Body (Verified (py "approved") tok), col')
    end.

(** The [try] block of [get_current_user]: decode, then read ["sub"]. *)
Definition token_subject (tok : token) (now : time) : str + raised :=
  match jwt_decode tok JWT_SECRET [JWT_ALGORITHM] now with
  | JwtRaised e => inr (RaisedJwt e)
  | Decoded payload =>
      match sub payload with
      | Some (c :: s) => inl (c :: s)
      | Some [] | None => inr (RaisedHTTP 401 "Invalid token (no subject).")
      end
  end.

(** [async def get_current_user(creds)] of main.py: an expired signature
    has a handler of its own. *)
Definition get_current_user (tok : token) (now : time) (col : users_col)
    : response user_doc :=
  match token_subject tok now with
  | inr (RaisedJwt ExpiredSignatureError) => HTTPException 401 "Token expired."
  | inr _ => HTTPException 401 "Invalid token."
  | inl p =>
      match find_one col p with
      | None => HTTPException 404 "User not found."
      | Some user_doc => Body user_doc
      end
  end.

End Routes.
End Main.

(** app/routes/users.py *)
Module Users.
Import Utils Db Http.

(** The minimal user object of [get_current_user]. *)
Record user_response : Type := UserResponse {
  r_user_id : option str;
  r_phone : str;
  r_is_verified : bool;
  r_created_at : option time;
  r_last_login : option time;
}.

Section Routes.
Variable token : Type.
Variable jwt_decode : token → str → list str → time → decoded.
Variable JWT_SECRET JWT_ALGORITHM : str.

(** The [try] block of [get_current_user]: [decode_jwt_token], then read
    ["sub"]. *)
Definition token_subject (tok : token) (now : time) : str + raised :=
  match decode_jwt_token token jwt_decode JWT_SECRET JWT_ALGORITHM tok now with
  | JwtRaised e => inr (RaisedJwt e)
  | Decoded payload =>
      match sub payload with
      | Some (c :: s) => inl (c :: s)
      | Some [] | None => inr (RaisedHTTP 401 "Invalid token (no subject).")
      end
  end.

(** [async def get_current_user(creds)] of app/routes/users.py: one
    handler, [except Exception], for everything the [try] block raises. *)
Definition get_current_user (tok : token) (now : time) (col : users_col)
    : response user_response :=
  match token_subject tok now with
  | inr _ => HTTPException 401 "Invalid token."
  | inl p =>
      match find_one col p with
      | None => HTTPException 404 "User not found."
      | Some user_doc =>
          Body {| r_user_id := user_id user_doc;
                  r_phone := phone user_doc;
                  r_is_verified := default false (is_verified user_doc);
                  r_created_at := created_at user_doc;
                  r_last_login := last_login user_doc |}
      end
  end.

End Routes.

(** [async def get_user_by_id(user_id: str)] *)
Definition get_user_by_id (uid : str) (col : users_col) : response user_response :=
  match find_one_by_user_id col uid with
  | None => HTTPException 404 "User not found"
  | Some (_, doc) =>
      Body {| r_user_id := user_id doc;
              r_phone := phone doc;
              r_is_verified := default false (is_verified doc);
              r_created_at := created_at doc;
              r_last_login := last_login doc |}
  end.

End Users.

(** The stand-alone entry point anuj.py: the verification flow written out
    inside the handler, and the deletion of a user. *)
Module Anuj.
Import Utils Db UserService Http Auth.

Section Routes.
Variable unicode_isdigit : N → bool.
Variable lower : str → str.
(** [twilio_client and TW_VERIFY_SID] *)
Variable twilio_configured : bool.
Variable verification_checks_create : str → str → check_outcome.
Variable token : Type.
Variable jwt_encode : claims → str → str → token.
Variable JWT_SECRET JWT_ALGORITHM : str.
Variable JWT_EXPIRES_MINUTES : Z.

(** The end of [verify_otp]: the token and the answer built from
    [created_user]. *)
Definition answer (p : str) (now : time) (created_user : option user_doc)
    : response (verified token) :=
  let tok := create_jwt_token token jwt_encode JWT_SECRET JWT_ALGORITHM
               JWT_EXPIRES_MINUTES p now in
  match created_user ≫= user_id with
  | Some uid => Body (Verified (py "approved") tok uid)
  | None => internal_server_error
  end.

(** [async def verify_otp(payload: VerifyOTPIn)] of anuj.py.  The store
    calls stand in one [try] block whose handler answers 500 for every
    exception, a refusal by a unique index included. *)
Definition verify_otp (payload_phone payload_code : str) (now : time)
    (gen_id : str) (col : users_col) : response (verified token) * users_col :=
  let p := normalize_phone unicode_isdigit payload_phone in
  if negb twilio_configured
  then (HTTPException 500 "Twilio client or Verify service not configured on server.",
        col)
  else
    match verification_checks_create p payload_code with
    | CheckRaised e => (HTTPException 400 ("Verification failed: " ++ e), col)
    | CheckReturned status =>
        if not_approved lower status
        then (HTTPException 400 "Invalid OTP or verification not approved.", col)
        else
          let database_error :=
            HTTPException 500 "Database error while creating user record." in
          match find_one col p with
          | None =>
              let new_user := new_user p now gen_id in
              match insert_one col new_user with
              | Written col' => (answer p now (Some new_user), col')
              | DuplicateKeyError => (database_error, col)
              end
          | Some user_doc =>
              match match user_id user_doc with
                    | None => update_one_set_user_id col p gen_id
                    | Some _ => Written col
                    end with
              | DuplicateKeyError => (database_error, col)
              | Written col1 =>
                  let col2 := update_one_set_verified col1 p now in
                  (answer p now (find_one col2 p), col2)
              end
          end
    end.

End Routes.

(** [async def delete_user(user_id: str)] *)
Definition delete_user (uid : str) (col : users_col) : response unit * users_col :=
  let '(deleted_count, col') := delete_one_by_user_id col uid in
  if (deleted_count =? 0)%nat then (HTTPException 404 "User not found.", col')
  else (Body (), col').

End Anuj.

(* ===================================================================== *)
(** ** app/services/profile_service.py *)
(* ===================================================================== *)

Module ProfileService.
Import Utils.

(** The values a profile document holds. *)
Inductive value : Type :=
| VNone
| VStr (s : str)
| VBool (b : bool)
| VNum (n : Z)
| VTime (t : time)
| VList (l : list str).

#[global] Instance value_eq_dec : EqDecision value.
Proof. solve_decision. Defined.

(** A profile document ([Dict[str, Any]]), and the Profiles collection with
    its unique index on [user_id]. *)
Abbreviation doc := (gmap string value).
Abbreviation profiles_col := (gmap str doc).

(** A refused update: two operators on one path, or [$push] on a field that
    is not an array. *)
Inductive update (A : Type) : Type :=
| Updated (col : A)
| WriteError.
Arguments Updated {A} col.
Arguments WriteError {A}.

(** [$push]: append to the array, creating it when the field is missing. *)
Definition push (field : string) (x : str) (d : doc) : option doc :=
  match d !! field with
  | None => Some (<[field := VList [x]]> d)
  | Some (VList l) => Some (<[field := VList (l ++ [x])]> d)
  | Some _ => None
  end.

Definition push_opt (p : option (string * str)) (d : doc) : option doc :=
  match p with
  | None => Some d
  | Some (field, x) => push field x d
  end.

(** Do two operators of one update name the same field? *)
Definition conflicting (set : doc) (p : option (string * str)) (on_insert : doc) : bool :=
  bool_decide (∃ k, k ∈ dom set ∧ k ∈ dom on_insert)
  || match p with
     | Some (field, _) =>
         bool_decide (field ∈ dom set) || bool_decide (field ∈ dom on_insert)
     | None => false
     end.

(** [profiles_col.update_one({"user_id": uid},
      {"$set": set, "$push": p, "$setOnInsert": on_insert}, upsert=True)].
    On a stored document [$set] overrides its fields and [$push] appends; when
    none is stored, the new document starts from the filter and
    [on_insert]. *)
Definition update_one_upsert (col : profiles_col) (uid : str) (set : doc)
    (p : option (string * str)) (on_insert : doc) : update profiles_col :=
  if conflicting set p on_insert then WriteError
  else
    let base :=
      match col !! uid with
      | Some d => d
      | None => on_insert ∪ {[ "user_id" := VStr uid ]}
      end in
    match push_opt p (set ∪ base) with
    | Some d' => Updated (<[uid := d']> col)
    | None => WriteError
    end.

(** What a service call does: it returns, or the store's error leaves it. *)
Inductive outcome : Type :=
| Returns (d : option doc) (col : profiles_col)
| Raises.

(** [async def get_profile(user_id)] *)
Definition get_profile (col : profiles_col) (uid : str) : option doc := col !! uid.

(** [async def create_or_update_profile(user_id, profile_data)], called when
    the clock reads [now]. *)
Definition create_or_update_profile (uid : str) (profile_data : doc) (now : time)
    (col : profiles_col) : outcome :=
  let profile_data := filter (λ kv, kv.2 ≠ VNone) profile_data in
  let profile_data := <["updated_at" := VTime now]> profile_data in
  match update_one_upsert col uid profile_data None
          {[ "created_at" := VTime now; "user_id" := VStr uid ]} with
  | Updated col' => Returns (col' !! uid) col'
  | WriteError => Raises
  end.

(** [async def delete_profile(user_id) -> bool] *)
Definition delete_profile (uid : str) (col : profiles_col) : bool * profiles_col :=
  (bool_decide (is_Some (col !! uid)), delete uid col).

(** [async def add_profile_image(user_id, b64_str)] *)
Definition add_profile_image (uid : str) (b64_str : str) (now : time)
    (col : profiles_col) : outcome :=
  match update_one_upsert col uid
          {[ "profile_image" := VStr b64_str; "updated_at" := VTime now ]} None
          {[ "created_at" := VTime now; "user_id" := VStr uid ]} with
  | Updated col' => Returns (get_profile col' uid) col'
  | WriteError => Raises
  end.

(** [async def add_gallery_image(user_id, b64_str)] *)
Definition add_gallery_image (uid : str) (b64_str : str) (now : time)
    (col : profiles_col) : outcome :=
  match update_one_upsert col uid ∅ (Some ("gallery_images", b64_str))
          {[ "created_at" := VTime now; "user_id" := VStr uid ]} with
  | Updated col' => Returns (get_profile col' uid) col'
  | WriteError => Raises
  end.

(** The gallery of a user: the [gallery_images] array of the stored
    profile, empty when there is none. *)
Definition gallery (col : profiles_col) (uid : str) : list str :=
  match col !! uid ≫= (.!! "gallery_images") with
  | Some (VList l) => l
  | _ => []
  end.

(** The profile write operations, and the store after one of them (a
    refused write leaves the store as it was). *)
Inductive profile_write : Type :=
| CreateOrUpdateProfile (profile_data : doc)
| AddProfileImage (b64_str : str)
| AddGalleryImage (b64_str : str).

Definition perform (uid : str) (now : time) (w : profile_write) (col : profiles_col)
    : outcome :=
  match w with
  | CreateOrUpdateProfile profile_data => create_or_update_profile uid profile_data now col
  | AddProfileImage b64_str => add_profile_image uid b64_str now col
  | AddGalleryImage b64_str => add_gallery_image uid b64_str now col
  end.

Definition store_after (col : profiles_col) (o : outcome) : profiles_col :=
  match o with
  | Returns _ col' => col'
  | Raises => col
  end.

(** A sequence of writes, each with the user it is made for and the reading
    of the clock at its call. *)
Definition perform_all (ws : list (str * time * profile_write))
    (col : profiles_col) : profiles_col :=
  foldl (λ col '(uid, now, w), store_after col (perform uid now w col)) col ws.


(** Every stored profile names, in its [user_id] field, the user it is
    stored for. *)
Definition owned (col : profiles_col) : Prop :=
  ∀ uid d, col !! uid = Some d → d !! "user_id" = Some (VStr uid).

End ProfileService.

(** The profile handlers of app/routes/users.py that take the user from the
    path. *)
Module ProfileRoutes.
Import Utils Http ProfileService.

(** [async def get_profile_by_userid(user_id: str)] *)
Definition get_profile_by_userid (uid : str) (col : profiles_col) : response doc :=
  match get_profile col uid with
  | None => HTTPException 404 "Profile not found"
  | Some d => Body d
  end.

(** [async def delete_profile_by_userid(user_id: str)]; the body stands for
    the answer with status "deleted". *)
Definition delete_profile_by_userid (uid : str) (col : profiles_col)
    : response unit * profiles_col :=
  let '(ok, col') := delete_profile uid col in
  if negb ok then (HTTPException 404 "Profile not found", col')
  else (Body (), col').

End ProfileRoutes.

(* ===================================================================== *)
(** * Properties *)
(* ===================================================================== *)

(** ** Stripping *)

Section Strip.
Import Utils.

(** Case analysis on the comparisons of a character class. *)
Ltac char_cases :=
  repeat match goal with
  | |- context [N.leb ?a ?b] => destruct (N.leb_spec a b); try lia
  | |- context [N.eqb ?a ?b] => destruct (N.eqb_spec a b); try lia
  | |- context [N.ltb ?a ?b] => destruct (N.ltb_spec a b); try lia
  end; simpl; try done.

Lemma ascii_digit_not_space c : ascii_digit c = true → isspace c = false.
Proof. unfold ascii_digit, isspace. char_cases. Qed.

Lemma plus_not_space : isspace 43 = false.
Proof. reflexivity. Qed.

Lemma lstrip_idem s : lstrip (lstrip s) = lstrip s.
Proof.
  induction s as [|c s IH]; simpl; [done|].
  destruct (isspace c) eqn:Hc; [done|]. simpl. by rewrite Hc.
Qed.

Lemma lstrip_snoc s c : isspace c = false → lstrip (s ++ [c]) = lstrip s ++ [c].
Proof.
  intros Hc. induction s as [|d s IH]; simpl.
  - by rewrite Hc.
  - by destruct (isspace d).
Qed.

Lemma rstrip_cons c s : isspace c = false → rstrip (c :: s) = c :: rstrip s.
Proof.
  intros Hc. unfold rstrip. simpl.
  by rewrite lstrip_snoc, rev_app_distr.
Qed.

Lemma rstrip_idem s : rstrip (rstrip s) = rstrip s.
Proof. unfold rstrip. by rewrite rev_involutive, lstrip_idem. Qed.

Lemma lstrip_no_space s : Forall (λ c, isspace c = false) s → lstrip s = s.
Proof. intros [|c t Hc _]; simpl; [done|]. by rewrite Hc. Qed.

Lemma rstrip_no_space s : Forall (λ c, isspace c = false) s → rstrip s = s.
Proof.
  intros Hs. unfold rstrip. rewrite lstrip_no_space, rev_involutive; [done|].
  rewrite Forall_forall in *. intros c Hc. apply Hs.
  by apply list_elem_of_In, in_rev, list_elem_of_In.
Qed.

Lemma strip_no_space s : Forall (λ c, isspace c = false) s → strip s = s.
Proof. intros Hs. unfold strip. by rewrite lstrip_no_space, rstrip_no_space. Qed.

(** The result of [strip] is empty or starts with a character that is no
    whitespace ... *)
Lemma lstrip_strip s : lstrip (strip s) = strip s.
Proof.
  unfold strip. pose proof (lstrip_idem s) as Hi.
  destruct (lstrip s) as [|c t] eqn:Hl; [done|].
  simpl in Hi. destruct (isspace c) eqn:Hc.
  - exfalso. clear Hi. revert c t Hl Hc.
    induction s as [|d s IH]; intros c t Hl Hc; simpl in Hl; [done|].
    destruct (isspace d) eqn:Hd; [by eapply IH|]. congruence.
  - rewrite rstrip_cons by done. simpl. by rewrite Hc.
Qed.

(** ... and [strip] changes it no more. *)
Lemma strip_idem s : strip (strip s) = strip s.
Proof.
  unfold strip at 1. rewrite lstrip_strip. unfold strip. apply rstrip_idem.
Qed.

Lemma startswith_plus s : startswith (py "+") s = true ↔ ∃ t, s = 43 :: t.
Proof.
  unfold startswith. rewrite bool_decide_eq_true. simpl. split.
  - destruct s as [|c t]; simpl; [done|]. rewrite take_0. intros [= ->]. eauto.
  - intros [t ->]. simpl. by rewrite take_0.
Qed.

Lemma last_no_space_rstrip s :
  (∀ c, last s = Some c → isspace c = false) → rstrip s = s.
Proof.
  intros Hs. unfold rstrip.
  destruct s as [|c s _] using rev_ind; [done|].
  rewrite rev_app_distr. simpl.
  rewrite (Hs c) by apply last_snoc.
  by rewrite <- (rev_involutive s) at 2.
Qed.

Section Table.
Variable unicode_isdigit : N → bool.

(** No whitespace character is classified as a digit: digits carry a
    numeric type in the Unicode database, whitespace characters none. *)
Hypothesis digit_not_space :
  ∀ c, 128 ≤ c → unicode_isdigit c = true → isspace c = false.

Lemma isdigit_not_space c : isdigit unicode_isdigit c = true → isspace c = false.
Proof.
  unfold isdigit. destruct (N.ltb_spec c 128).
  - apply ascii_digit_not_space.
  - by apply digit_not_space.
Qed.

Lemma space_not_digit c : isspace c = true → isdigit unicode_isdigit c = false.
Proof.
  intros Hc. destruct (isdigit unicode_isdigit c) eqn:Hd; [|done].
  apply isdigit_not_space in Hd. congruence.
Qed.

Lemma digits_of_no_space s :
  Forall (λ c, isspace c = false) (digits_of unicode_isdigit s).
Proof.
  apply Forall_forall. intros c Hc.
  apply list_elem_of_In, filter_In in Hc as [_ Hc]. by apply isdigit_not_space.
Qed.

Lemma digits_of_lstrip s :
  digits_of unicode_isdigit (lstrip s) = digits_of unicode_isdigit s.
Proof.
  induction s as [|c s IH]; simpl; [done|].
  destruct (isspace c) eqn:Hc; [|done].
  by rewrite (space_not_digit c Hc).
Qed.

Lemma digits_of_strip s :
  digits_of unicode_isdigit (strip s) = digits_of unicode_isdigit s.
Proof.
  unfold strip, rstrip, digits_of.
  rewrite filter_rev. fold (digits_of unicode_isdigit (lstrip (rev (lstrip s)))).
  rewrite digits_of_lstrip. unfold digits_of. rewrite filter_rev, rev_involutive.
  apply digits_of_lstrip.
Qed.

(** Every value [normalize_phone] returns starts with '+' and has no
    whitespace at either end. *)
Lemma normalize_phone_shape s :
  startswith (py "+") (normalize_phone unicode_isdigit s) = true ∧
  strip (normalize_phone unicode_isdigit s) = normalize_phone unicode_isdigit s.
Proof.
  unfold normalize_phone.
  destruct (startswith (py "+") (strip s)) eqn:Hp.
  { split; [done|apply strip_idem]. }
  pose proof (digits_of_no_space (strip s)) as Hd.
  set (ds := digits_of unicode_isdigit (strip s)) in *.
  assert (Forall (λ c, isspace c = false) (py "+91")) as H91
    by (repeat constructor).
  assert (Forall (λ c, isspace c = false) (py "+")) as H1
    by (repeat constructor).
  repeat case_match; (split; [by apply startswith_plus; eexists|]);
    apply strip_no_space, Forall_app; split; try done; by apply Forall_drop.
Qed.

(** C8 (as amended).  An input that, once trimmed, does not start with '+'
    and that contains exactly ten digit characters is mapped to "+91"
    followed by those ten digits in their order. *)
Theorem normalize_phone_ten_digits s :
  startswith (py "+") (strip s) = false →
  length (digits_of unicode_isdigit s) = 10%nat →
  normalize_phone unicode_isdigit s = py "+91" ++ digits_of unicode_isdigit s.
Proof.
  intros Hp Hlen. unfold normalize_phone.
  rewrite Hp, digits_of_strip, Hlen. reflexivity.
Qed.

(** C10.  [normalize_phone] is idempotent; every value it returns starts
    with '+' and carries no whitespace at either end. *)
Theorem normalize_phone_idempotent s :
  normalize_phone unicode_isdigit (normalize_phone unicode_isdigit s)
    = normalize_phone unicode_isdigit s
  ∧ startswith (py "+") (normalize_phone unicode_isdigit s) = true
  ∧ strip (normalize_phone unicode_isdigit s) = normalize_phone unicode_isdigit s.
Proof.
  destruct (normalize_phone_shape s) as [Hplus Hstrip].
  split; [|done].
  unfold normalize_phone at 1. by rewrite Hstrip, Hplus.
Qed.

End Table.

(** C9 (as amended).  On an input that starts with '+', [normalize_phone]
    returns the input without its trailing whitespace; when the input does
    not end in whitespace it is returned as it is. *)
Theorem normalize_phone_plus_prefixed unicode_isdigit s :
  startswith (py "+") s = true →
  normalize_phone unicode_isdigit s = rstrip s ∧
  ((∀ c, last s = Some c → isspace c = false) →
   normalize_phone unicode_isdigit s = s).
Proof.
  intros Hp. apply startswith_plus in Hp as [t ->].
  assert (normalize_phone unicode_isdigit (43 :: t) = rstrip (43 :: t)) as Hn.
  { unfold normalize_phone, strip. simpl lstrip.
    rewrite rstrip_cons by done.
    by rewrite (proj2 (startswith_plus _) (ex_intro _ _ eq_refl)). }
  split; [done|]. intros Hlast. rewrite Hn. by apply last_no_space_rstrip.
Qed.

(** On ASCII input the table of digits beyond ASCII plays no role. *)
Lemma is_ascii_lstrip s : is_ascii s → is_ascii (lstrip s).
Proof.
  unfold is_ascii. induction 1 as [|c s Hc Hs IH]; simpl; [done|].
  destruct (isspace c); [done|by constructor].
Qed.

Lemma is_ascii_rev s : is_ascii s → is_ascii (rev s).
Proof.
  unfold is_ascii. rewrite !Forall_forall. intros Hs c Hc. apply Hs.
  by apply list_elem_of_In, in_rev, list_elem_of_In.
Qed.

Lemma is_ascii_strip s : is_ascii s → is_ascii (strip s).
Proof.
  intros Hs. unfold strip, rstrip.
  by apply is_ascii_rev, is_ascii_lstrip, is_ascii_rev, is_ascii_lstrip.
Qed.

Lemma digits_of_ascii t1 t2 s : is_ascii s → digits_of t1 s = digits_of t2 s.
Proof.
  unfold digits_of, isdigit. induction 1 as [|c s Hc Hs IH]; simpl; [done|].
  apply N.ltb_lt in Hc. rewrite Hc. by rewrite IH.
Qed.

Lemma normalize_phone_ascii t1 t2 s :
  is_ascii s → normalize_phone t1 s = normalize_phone t2 s.
Proof.
  intros Hs. unfold normalize_phone.
  rewrite (digits_of_ascii t1 t2 (strip s)); [done|by apply is_ascii_strip].
Qed.

End Strip.

(** C8, as the specification words it, fails: "+1234567890" contains
    exactly ten digits and is returned as it is. *)
Lemma normalize_phone_ten_digits_counterexample :
  length (digits_of no_unicode_digits (py "+1234567890")) = 10%nat ∧
  Utils.normalize_phone no_unicode_digits (py "+1234567890")
    ≠ py "+91" ++ digits_of no_unicode_digits (py "+1234567890").
Proof. split; [reflexivity|]. vm_compute. discriminate. Qed.

Lemma normalize_phone_ten_digits_witness :
  PyStr.startswith (py "+") (strip (py " 98765-43210 ")) = false ∧
  length (digits_of arabic_indic_digits (py " 98765-43210 ")) = 10%nat ∧
  Utils.normalize_phone arabic_indic_digits (py " 98765-43210 ")
    = py "+919876543210".
Proof.
  split; [reflexivity|]. split; [reflexivity|].
  apply (normalize_phone_ten_digits arabic_indic_digits).
  - intros c Hc H. unfold arabic_indic_digits in H. unfold isspace.
    repeat match goal with
    | |- context [N.leb ?a ?b] => destruct (N.leb_spec a b); try lia
    | |- context [N.eqb ?a ?b] => destruct (N.eqb_spec a b); try lia
    | H : context [N.leb ?a ?b] |- _ => destruct (N.leb_spec a b); try lia
    end; done.
  - reflexivity.
  - reflexivity.
Defined.

(** C9, as the specification words it, fails: "+1 " starts with '+' and
    loses its trailing blank. *)
Lemma normalize_phone_plus_prefixed_counterexample :
  PyStr.startswith (py "+") (py "+1 ") = true ∧
  Utils.normalize_phone no_unicode_digits (py "+1 ") ≠ py "+1 ".
Proof. split; [reflexivity|]. vm_compute. discriminate. Qed.

Lemma normalize_phone_plus_prefixed_witness :
  PyStr.startswith (py "+") (py "+91 98765 43210") = true ∧
  Utils.normalize_phone no_unicode_digits (py "+91 98765 43210")
    = py "+91 98765 43210".
Proof.
  split; [reflexivity|].
  apply (normalize_phone_plus_prefixed no_unicode_digits (py "+91 98765 43210"));
    [reflexivity|].
  intros c [= <-]. reflexivity.
Defined.

Lemma normalize_phone_idempotent_witness :
  Utils.normalize_phone arabic_indic_digits
    (Utils.normalize_phone arabic_indic_digits (py "098765 43210"))
  = Utils.normalize_phone arabic_indic_digits (py "098765 43210").
Proof.
  apply (normalize_phone_idempotent arabic_indic_digits).
  intros c Hc H. unfold arabic_indic_digits in H. unfold isspace.
  repeat match goal with
  | |- context [N.leb ?a ?b] => destruct (N.leb_spec a b); try lia
  | |- context [N.eqb ?a ?b] => destruct (N.eqb_spec a b); try lia
  | H : context [N.leb ?a ?b] |- _ => destruct (N.leb_spec a b); try lia
  end; done.
Defined.

(** ** The identity record *)

Section Identity.
Import Utils Db UserService.

Lemma user_id_free (col : users_col) (uid self : str) :
  (∀ q d, col !! q = Some d → user_id d ≠ Some uid) →
  user_id_taken col uid self = false.
Proof.
  intros Hfresh. unfold user_id_taken. apply bool_decide_eq_false.
  intros (q & d & Hq & _ & Hd)%map_Exists_lookup. by eapply Hfresh.
Qed.

(** C3.  [ensure_user_on_send] creates the record with [is_verified] false
    and [created_at] = now when the phone has none; it always sets
    [last_otp_sent_at] to now; on a stored record it changes nothing else;
    it touches no other phone; and a second call leaves [created_at] as the
    first call left it. *)
Theorem ensure_user_on_send_spec (p : str) (now : time) (col : users_col) :
  match col !! p with
  | None =>
      ensure_user_on_send p now col !! p =
        Some {| phone := p; user_id := None; is_verified := Some false;
                created_at := Some now; last_otp_sent_at := Some now;
                last_login := None |}
  | Some d =>
      ensure_user_on_send p now col !! p =
        Some {| phone := phone d; user_id := user_id d;
                is_verified := is_verified d; created_at := created_at d;
                last_otp_sent_at := Some now; last_login := last_login d |}
  end
  ∧ (∀ q, q ≠ p → ensure_user_on_send p now col !! q = col !! q)
  ∧ (∀ now', ensure_user_on_send p now' (ensure_user_on_send p now col) !! p
               ≫= created_at
             = ensure_user_on_send p now col !! p ≫= created_at).
Proof.
  assert (∀ t (c : users_col), ∃ d,
            ensure_user_on_send p t c !! p = Some d ∧
            created_at d = default (Some t) (created_at <$> c !! p)) as Hcreated.
  { intros t c. unfold ensure_user_on_send, update_one_upsert.
    destruct (c !! p) as [d|]; rewrite lookup_insert_eq; eauto. }
  split; [|split].
  - unfold ensure_user_on_send, update_one_upsert.
    destruct (col !! p) as [d|]; by rewrite lookup_insert_eq.
  - intros q Hq. unfold ensure_user_on_send, update_one_upsert.
    destruct (col !! p) as [d|]; by rewrite lookup_insert_ne.
  - intros now'.
    destruct (Hcreated now' (ensure_user_on_send p now col)) as (d2 & -> & H2).
    destruct (Hcreated now col) as (d1 & H1 & _).
    rewrite H1 in *. simpl in *. done.
Qed.

(** Run on its own with a generated id that no record carries,
    [create_or_attach_user_id] returns the record that is stored for the
    phone after the call; that record has a [user_id], is verified and has
    [last_login] = now.  Without a record for the phone the returned record
    is the fresh one, carrying the generated id; a [user_id] present before
    the call is the one returned. *)
Theorem create_or_attach_user_id_snapshot (p : str) (now : time) (gen_id : str)
    (col : users_col) :
  (∀ q d, col !! q = Some d → user_id d ≠ Some gen_id) →
  ∃ d col',
    create_or_attach_user_id p now gen_id col = (Some d, col')
    ∧ col' !! p = Some d
    ∧ is_Some (user_id d)
    ∧ is_verified d = Some true
    ∧ last_login d = Some now
    ∧ (col !! p = None →
       d = {| phone := p; user_id := Some gen_id; is_verified := Some true;
              created_at := Some now; last_otp_sent_at := None;
              last_login := Some now |})
    ∧ (∀ d0 uid, col !! p = Some d0 → user_id d0 = Some uid → user_id d = Some uid).
Proof.
  intros Hfresh. unfold create_or_attach_user_id, find_one.
  destruct (col !! p) as [d0|] eqn:Hp.
  - destruct (user_id d0) as [uid|] eqn:Hid.
    + unfold update_one_set_verified. rewrite Hp.
      eexists _, _. split; [by rewrite lookup_insert_eq|].
      rewrite lookup_insert_eq. simpl. rewrite Hid.
      repeat split; eauto; try done. intros ?? [= <-]. by rewrite Hid.
    + unfold update_one_set_user_id. rewrite Hp, user_id_free by done.
      unfold update_one_set_verified. rewrite lookup_insert_eq.
      eexists _, _. split; [by rewrite lookup_insert_eq|].
      rewrite lookup_insert_eq. simpl.
      repeat split; eauto; try done. intros ?? [= <-]. by rewrite Hid.
  - unfold insert_one, new_user. simpl. rewrite Hp, user_id_free by done.
    eexists _, _. split; [done|]. rewrite lookup_insert_eq.
    repeat split; eauto; done.
Qed.

Lemma create_or_attach_user_id_snapshot_witness :
  ∃ d col',
    create_or_attach_user_id (py "+15550001") 200%Z (py "65f1c0de0000000000000001")
      (ensure_user_on_send (py "+15550001") 100%Z ∅) = (Some d, col')
    ∧ col' !! py "+15550001" = Some d
    ∧ user_id d = Some (py "65f1c0de0000000000000001").
Proof.
  destruct (create_or_attach_user_id_snapshot (py "+15550001") 200%Z
              (py "65f1c0de0000000000000001")
              (ensure_user_on_send (py "+15550001") 100%Z ∅))
    as (d & col' & Hrun & Hread & _).
  - intros q d Hq. unfold ensure_user_on_send, update_one_upsert in Hq.
    rewrite lookup_empty in Hq.
    apply lookup_insert_Some in Hq as [[_ <-]|[_ Hq]]; [done|].
    by rewrite lookup_empty in Hq.
  - exists d, col'. split; [done|]. split; [done|].
    vm_compute in Hrun. by injection Hrun as <- _.
Defined.

(** A system of one invocation is that invocation on its own. *)
Lemma run_single (n : nat) (c : call) (col : users_col) :
  run (replicate n 0%nat) {| calls := [c]; store := col |}
  = {| calls := [(run_call n c col).1]; store := (run_call n c col).2 |}.
Proof.
  revert c col. induction n as [|n IH]; intros c col; [done|].
  change (run (replicate (S n) 0%nat) {| calls := [c]; store := col |})
    with (run (replicate n 0%nat) (step_call 0 {| calls := [c]; store := col |})).
  unfold step_call. cbn [calls store lookup list_lookup run_call].
  destruct (step c col) as [c' col']. apply IH.
Qed.

(** Run on its own, the step machine returns within five store calls, with
    the result and the store of [create_or_attach_user_id]. *)
Lemma run_call_alone (p : str) (now : time) (gen_id : str) (col : users_col) :
  run_call 5 (start p now gen_id) col
  = (goto (start p now gen_id)
       (Returned (create_or_attach_user_id p now gen_id col).1),
     (create_or_attach_user_id p now gen_id col).2).
Proof.
  unfold create_or_attach_user_id, start, goto.
  unfold run_call. unfold step at 1. cbn [c_pc c_phone c_now c_gen_id].
  destruct (find_one col p) as [d0|] eqn:Hp.
  - destruct (user_id d0) as [uid|] eqn:Hid.
    + unfold goto, step. cbn [c_pc c_phone c_now c_gen_id fst snd]. reflexivity.
    + unfold goto. unfold step at 1. cbn [c_pc c_phone c_now c_gen_id].
      destruct (update_one_set_user_id col p gen_id) as [col1|];
        unfold goto, step; cbn [c_pc c_phone c_now c_gen_id fst snd]; reflexivity.
  - unfold goto. unfold step at 1. cbn [c_pc c_phone c_now c_gen_id].
    destruct (insert_one col (new_user p now gen_id)) as [col1|];
      unfold goto, step; cbn [c_pc c_phone c_now c_gen_id fst snd];
      rewrite ?Hp; reflexivity.
Qed.

(** *** The race for a phone without a record *)

Lemma pc_ok_kept (before after : option user_doc) (l : pc) :
  slot_kept before after → pc_ok before l → pc_ok after l.
Proof.
  destruct before as [d|]; simpl.
  - intros (d' & -> & Hid). simpl. destruct l; try done. by rewrite Hid.
  - intros _ [-> | ->]; destruct after; simpl; auto.
Qed.

Lemma slot_kept_refl (slot : option user_doc) : slot_kept slot slot.
Proof. destruct slot; simpl; eauto. Qed.

Lemma fresh_id_free (p : str) (col : users_col) (c : call) :
  fresh_id p col c → user_id_taken col (c_gen_id c) p = false.
Proof.
  intros Hfresh. unfold user_id_taken. apply bool_decide_eq_false.
  intros (q & d & Hq & Hne & Hd)%map_Exists_lookup. by eapply Hfresh.
Qed.

(** What one store call of one invocation does to the record of the phone
    and to the invocation. *)
Lemma step_race (p : str) (c : call) (col : users_col) :
  c_phone c = p → fresh_id p col c →
  slot_ok (col !! p) → pc_ok (col !! p) (c_pc c) →
  c_phone (step c col).1 = p
  ∧ c_gen_id (step c col).1 = c_gen_id c
  ∧ (∀ q, q ≠ p → (step c col).2 !! q = col !! q)
  ∧ slot_ok ((step c col).2 !! p)
  ∧ slot_kept (col !! p) ((step c col).2 !! p)
  ∧ pc_ok ((step c col).2 !! p) (c_pc (step c col).1).
Proof.
  intros <- Hfresh Hslot Hpc. unfold step, find_one.
  destruct (col !! c_phone c) as [d|] eqn:Hd; simpl in Hslot, Hpc.
  - destruct Hslot as [w Hw].
    destruct (c_pc c) eqn:Hl; try done; simpl; rewrite ?Hd, ?Hw; simpl;
      rewrite ?Hd; simpl; eauto 10.
    + unfold insert_one, new_user. simpl. rewrite Hd. simpl. rewrite ?Hd, ?Hw.
      simpl. eauto 10.
    + unfold update_one_set_verified. rewrite Hd. simpl.
      rewrite lookup_insert_eq. simpl.
      repeat split; eauto. intros q Hq. by rewrite lookup_insert_ne.
    + rewrite Hl, Hw. repeat split; eauto. by rewrite <- Hw.
  - destruct Hpc as [Hl | Hl]; rewrite Hl; simpl; rewrite ?Hd; simpl.
    + repeat split; eauto.
    + unfold insert_one, new_user. simpl. rewrite Hd, fresh_id_free by done. simpl.
      rewrite lookup_insert_eq. simpl.
      repeat split; eauto. intros q Hq. by rewrite lookup_insert_ne.
Qed.

Lemma fresh_id_step (p : str) (col col' : users_col) (c c' : call) :
  (∀ q, q ≠ p → col' !! q = col !! q) → c_gen_id c' = c_gen_id c →
  fresh_id p col c → fresh_id p col' c'.
Proof.
  intros Hsame Hgen Hfresh q d Hq Hd. rewrite Hgen. rewrite Hsame in Hd by done.
  by eapply Hfresh.
Qed.

(** Every store call keeps the invariant, and keeps the record of the
    phone with its [user_id]. *)
Lemma step_call_race (p : str) (i : nat) (s : system) :
  race_inv p s →
  race_inv p (step_call i s)
  ∧ slot_kept (store s !! p) (store (step_call i s) !! p).
Proof.
  intros [Hslot Hcalls]. unfold step_call.
  destruct (calls s !! i) as [c|] eqn:Hi; [|split; [done|apply slot_kept_refl]].
  destruct (Forall_lookup_1 _ _ _ _ Hcalls Hi) as (Hp & Hfresh & Hpc).
  destruct (step_race p c (store s) Hp Hfresh Hslot Hpc)
    as (Hp' & Hgen & Hsame & Hslot' & Hkept & Hpc').
  destruct (step c (store s)) as [c' col'] eqn:Hstep. simpl in *.
  split; [|done]. split; [done|]. simpl.
  apply Forall_insert.
  - eapply Forall_impl; [exact Hcalls|]. simpl.
    intros c0 (Hp0 & Hfresh0 & Hpc0). split; [done|]. split.
    + by eapply fresh_id_step.
    + by eapply pc_ok_kept.
  - split; [done|]. split; [by eapply fresh_id_step|done].
Qed.

Lemma run_race (p : str) (schedule : list nat) (s : system) :
  race_inv p s →
  race_inv p (run schedule s)
  ∧ slot_kept (store s !! p) (store (run schedule s) !! p).
Proof.
  revert s. induction schedule as [|i schedule IH]; intros s Hinv.
  - split; [done|apply slot_kept_refl].
  - destruct (step_call_race p i s Hinv) as [Hinv1 Hkept1].
    destruct (IH _ Hinv1) as [Hinv2 Hkept2].
    change (run (i :: schedule) s) with (run schedule (step_call i s)).
    split; [done|].
    destruct (store s !! p) as [d|]; simpl in *; [|done].
    destruct Hkept1 as (d1 & Hd1 & Hid1). rewrite Hd1 in Hkept2. simpl in Hkept2.
    destruct Hkept2 as (d2 & Hd2 & Hid2). exists d2. split; [done|congruence].
Qed.

(** The part of C1 that the code does deliver.  Any number of invocations
    for a phone that has no record, each with a generated id that no record
    carries, interleaved in any way: at every moment each invocation that
    has returned holds a record with the [user_id] that is stored for the
    phone, and a stored [user_id] is never replaced afterwards. *)
Theorem new_phone_race_converges (p : str) (args : list (time * str))
    (col : users_col) (schedule later : list nat) :
  col !! p = None →
  (∀ now gen_id q d, (now, gen_id) ∈ args → col !! q = Some d →
                     user_id d ≠ Some gen_id) →
  let s0 := {| calls := map (λ a, start p a.1 a.2) args; store := col |} in
  let s := run schedule s0 in
  (∀ i r, result s i = Some r →
          ∃ d uid, r = Some d ∧ user_id d = Some uid
                   ∧ stored_user_id (store s) p = Some uid)
  ∧ (∀ uid, stored_user_id (store s) p = Some uid →
            stored_user_id (store (run later s)) p = Some uid).
Proof.
  intros Hnone Hfresh s0 s.
  assert (race_inv p s0) as Hinv0.
  { split; simpl; [by rewrite Hnone|]. rewrite Hnone.
    apply Forall_forall. intros c ([now gen_id] & -> & Hin)%list_elem_of_fmap.
    split; [done|]. split; [|by left].
    intros q d _ Hq. by eapply Hfresh. }
  destruct (run_race p schedule s0 Hinv0) as [[Hslot Hcalls] _]. fold s in Hslot, Hcalls.
  split.
  - intros i r Hres. unfold result in Hres.
    destruct (calls s !! i) as [c|] eqn:Hi; [|done].
    destruct (Forall_lookup_1 _ _ _ _ Hcalls Hi) as (_ & _ & Hpc).
    destruct (c_pc c) as [| | | | | | |r'] eqn:Hl; try done.
    injection Hres as ->. unfold stored_user_id.
    destruct (store s !! p) as [d|]; simpl in *; [|by destruct Hpc].
    destruct Hpc as (d' & -> & Hid). destruct Hslot as [uid Huid].
    exists d', uid. rewrite Hid. done.
  - intros uid Huid. unfold stored_user_id in *.
    destruct (run_race p later s (conj Hslot Hcalls)) as [_ Hkept].
    destruct (store s !! p) as [d|]; simpl in *; [|done].
    destruct Hkept as (d' & -> & Hid). simpl. congruence.
Qed.

(** C1 fails on the code.  A record exists for the phone without a
    [user_id] (a code was sent); two invocations both read it before either
    writes.  The first stores and returns its own id; the second then
    overwrites that id with its own. *)
Theorem concurrent_attach_overwrites_user_id :
  let p := py "+15550001" in
  let id1 := py "65f1c0de0000000000000001" in
  let id2 := py "65f1c0de0000000000000002" in
  let col0 := ensure_user_on_send p 100%Z ∅ in
  let s0 := {| calls := [start p 200%Z id1; start p 201%Z id2]; store := col0 |} in
  let s1 := run [0; 1; 0; 0; 0]%nat s0 in
  let s2 := run [1; 1; 1]%nat s1 in
  stored_user_id col0 p = None
  ∧ stored_user_id (store s1) p = Some id1
  ∧ (result s1 0%nat ≫= id) ≫= user_id = Some id1
  ∧ stored_user_id (store s2) p = Some id2
  ∧ (result s2 1%nat ≫= id) ≫= user_id = Some id2
  ∧ id1 ≠ id2.
Proof. vm_compute. repeat split; done. Qed.

End Identity.

(** ** Verification outcomes *)

Section Verification.
Import Utils Db UserService Http Auth.

Variable unicode_isdigit : N → bool.
Variable lower : str → str.
Variable verification_checks_create : str → str → check_outcome.
Variable token : Type.
Variable jwt_encode : claims → str → str → token.
Variable JWT_SECRET JWT_ALGORITHM : str.
Variable JWT_EXPIRES_MINUTES : Z.

(** C4.  When the provider's answer for the normalised phone and the code
    is anything other than approved, [verify_otp] answers with an error and
    the Users collection is what it was: no record changes.  This holds for
    the handler of app/routes/auth.py, which answers 400, and for the one of
    main.py, which answers 400 (or 500 when it has no provider client). *)
Theorem verify_otp_not_approved (twilio_configured : bool)
    (payload_phone payload_code : str) (now : time) (gen_id : str)
    (col : users_col) :
  rejected lower
    (verification_checks_create (normalize_phone unicode_isdigit payload_phone)
       payload_code) = true →
  (∃ detail,
     Auth.verify_otp unicode_isdigit lower twilio_configured
       verification_checks_create token jwt_encode JWT_SECRET JWT_ALGORITHM
       JWT_EXPIRES_MINUTES payload_phone payload_code now gen_id col
     = (HTTPException 400 detail, col))
  ∧ (∃ status_code detail,
     Main.verify_otp unicode_isdigit lower twilio_configured
       verification_checks_create token jwt_encode JWT_SECRET JWT_ALGORITHM
       JWT_EXPIRES_MINUTES payload_phone payload_code now col
     = (HTTPException status_code detail, col)
     ∧ (twilio_configured = true → status_code = 400%nat)).
Proof.
  intros Hrej. unfold Auth.verify_otp, Main.verify_otp, check_verification_code.
  destruct twilio_configured; simpl.
  - destruct (verification_checks_create _ _) as [e|status]; simpl in Hrej.
    + split; eauto.
    + rewrite Hrej. split; eauto.
  - split; eauto. eexists _, _. split; [done|]. done.
Qed.

End Verification.

Lemma verify_otp_not_approved_witness :
  let provider := λ (_ _ : str), Auth.CheckReturned (Some (py "pending")) in
  let col := UserService.ensure_user_on_send (py "+919876543210") 100%Z ∅ in
  Auth.rejected ascii_lower
    (provider (Utils.normalize_phone no_unicode_digits (py "9876543210"))
       (py "000000")) = true
  ∧ Auth.verify_otp no_unicode_digits ascii_lower true provider
      SymbolicJwt.token SymbolicJwt.encode (py "secret") (py "HS256") 60%Z
      (py "9876543210") (py "000000") 200%Z (py "65f1c0de0000000000000001") col
    = (Http.HTTPException 400 "Invalid OTP or verification not approved.", col).
Proof.
  intros provider col. split; [reflexivity|].
  destruct (verify_otp_not_approved no_unicode_digits ascii_lower provider
              SymbolicJwt.token SymbolicJwt.encode (py "secret") (py "HS256")
              60%Z true (py "9876543210") (py "000000") 200%Z
              (py "65f1c0de0000000000000001") col eq_refl)
    as [[detail Hauth] _].
  rewrite Hauth. f_equal.
  vm_compute in Hauth. by injection Hauth as <-.
Defined.

(** ** Session tokens *)

Section TokenContract.
Import Utils Db Http.

Variable token : Type.
Variable jwt_encode : claims → str → str → token.
Variable jwt_decode : token → str → list str → time → decoded.
Variable JWT_SECRET JWT_ALGORITHM : str.
Variable JWT_EXPIRES_MINUTES : Z.

(** What the service relies on from the token library, for the configured
    secret and algorithm: a token that was issued no later than the time of
    the check decodes to its payload before the time in its [exp] claim, and
    is refused as expired after it. *)
Hypothesis decode_before_expiry :
  ∀ payload (i e now : time),
    iat payload = Some i → exp payload = Some e →
    (i ≤ now)%Z → (now < e)%Z →
    jwt_decode (jwt_encode payload JWT_SECRET JWT_ALGORITHM)
      JWT_SECRET [JWT_ALGORITHM] now = Decoded payload.

Hypothesis decode_after_expiry :
  ∀ payload (i e now : time),
    iat payload = Some i → exp payload = Some e →
    (i ≤ now)%Z → (e < now)%Z →
    jwt_decode (jwt_encode payload JWT_SECRET JWT_ALGORITHM)
      JWT_SECRET [JWT_ALGORITHM] now = JwtRaised ExpiredSignatureError.

(** C5.  A token issued for phone [p] at time [issued] decodes, at any later
    time before its expiry [issued + 60 * JWT_EXPIRES_MINUTES], to a payload
    whose subject is [p]; after its expiry decoding fails. *)
Theorem token_validates_until_expiry (p : str) (issued now : time) :
  (issued ≤ now)%Z →
  let tok := create_jwt_token token jwt_encode JWT_SECRET JWT_ALGORITHM
               JWT_EXPIRES_MINUTES p issued in
  let check := decode_jwt_token token jwt_decode JWT_SECRET JWT_ALGORITHM tok now in
  ((now < issued + 60 * JWT_EXPIRES_MINUTES)%Z →
     ∃ payload, check = Decoded payload ∧ sub payload = Some p)
  ∧ ((issued + 60 * JWT_EXPIRES_MINUTES < now)%Z →
     check = JwtRaised ExpiredSignatureError).
Proof.
  intros Hle. unfold create_jwt_token, decode_jwt_token. split; intros Hnow.
  - eexists. split; [by eapply decode_before_expiry|reflexivity].
  - by eapply decode_after_expiry.
Qed.

(** With a stored record for a non-empty phone, [get_current_user] of
    app/routes/users.py accepts such a token before its expiry. *)
Lemma get_current_user_accepts (c : N) (p : str) (issued now : time)
    (col : users_col) (d : user_doc) :
  (issued ≤ now)%Z → (now < issued + 60 * JWT_EXPIRES_MINUTES)%Z →
  find_one col (c :: p) = Some d →
  ∃ r, Users.get_current_user token jwt_decode JWT_SECRET JWT_ALGORITHM
         (create_jwt_token token jwt_encode JWT_SECRET JWT_ALGORITHM
            JWT_EXPIRES_MINUTES (c :: p) issued) now col = Body r
       ∧ Users.r_user_id r = user_id d.
Proof.
  intros Hle Hnow Hd. unfold Users.get_current_user, Users.token_subject.
  unfold create_jwt_token, decode_jwt_token.
  erewrite decode_before_expiry; [|reflexivity|reflexivity|done|done].
  simpl. rewrite Hd. eauto.
Qed.

End TokenContract.

(** The symbolic token library meets the contract, whatever the secret and
    the algorithm. *)
Lemma symbolic_decode_before_expiry (secret alg : str) payload (i e now : Utils.time) :
  Utils.iat payload = Some i → Utils.exp payload = Some e →
  (i ≤ now)%Z → (now < e)%Z →
  SymbolicJwt.decode (SymbolicJwt.encode payload secret alg) secret [alg] now
  = Utils.Decoded payload.
Proof.
  intros Hi He Hle Hlt. unfold SymbolicJwt.decode, SymbolicJwt.encode.
  rewrite Hi, He.
  rewrite (bool_decide_eq_true_2 (alg ∈ [alg])) by apply list_elem_of_here.
  rewrite (bool_decide_eq_true_2 (secret = secret)) by done. simpl.
  destruct (Z.ltb_spec now i); [lia|].
  destruct (Z.leb_spec e now); [lia|done].
Qed.

Lemma symbolic_decode_after_expiry (secret alg : str) payload (i e now : Utils.time) :
  Utils.iat payload = Some i → Utils.exp payload = Some e →
  (i ≤ now)%Z → (e < now)%Z →
  SymbolicJwt.decode (SymbolicJwt.encode payload secret alg) secret [alg] now
  = Utils.JwtRaised Utils.ExpiredSignatureError.
Proof.
  intros Hi He Hle Hlt. unfold SymbolicJwt.decode, SymbolicJwt.encode.
  rewrite Hi, He.
  rewrite (bool_decide_eq_true_2 (alg ∈ [alg])) by apply list_elem_of_here.
  rewrite (bool_decide_eq_true_2 (secret = secret)) by done. simpl.
  destruct (Z.ltb_spec now i); [lia|].
  destruct (Z.leb_spec e now); [done|lia].
Qed.

Lemma token_validates_until_expiry_witness :
  let tok := Utils.create_jwt_token SymbolicJwt.token SymbolicJwt.encode
               (py "secret") (py "HS256") 60%Z (py "+919876543210") 1000%Z in
  (∃ payload,
     Utils.decode_jwt_token SymbolicJwt.token SymbolicJwt.decode
       (py "secret") (py "HS256") tok 4599%Z = Utils.Decoded payload
     ∧ Utils.sub payload = Some (py "+919876543210"))
  ∧ Utils.decode_jwt_token SymbolicJwt.token SymbolicJwt.decode
      (py "secret") (py "HS256") tok 4601%Z
    = Utils.JwtRaised Utils.ExpiredSignatureError.
Proof.
  intros tok. split.
  - apply (token_validates_until_expiry SymbolicJwt.token SymbolicJwt.encode
             SymbolicJwt.decode (py "secret") (py "HS256") 60%Z
             (symbolic_decode_before_expiry (py "secret") (py "HS256"))
             (symbolic_decode_after_expiry (py "secret") (py "HS256"))
             (py "+919876543210") 1000%Z 4599%Z); lia.
  - apply (token_validates_until_expiry SymbolicJwt.token SymbolicJwt.encode
             SymbolicJwt.decode (py "secret") (py "HS256") 60%Z
             (symbolic_decode_before_expiry (py "secret") (py "HS256"))
             (symbolic_decode_after_expiry (py "secret") (py "HS256"))
             (py "+919876543210") 1000%Z 4601%Z); lia.
Defined.

(** ** Refused tokens *)

Section RefusedTokens.
Import Utils Db Http.

Variable token : Type.
Variable jwt_decode : token → str → list str → time → decoded.
Variable JWT_SECRET JWT_ALGORITHM : str.

(** [get_current_user] of app/routes/users.py gives one and the same answer
    to every token its [try] block refuses: expired, malformed, wrongly
    signed, or without a subject. *)
Lemma users_get_current_user_uniform (tok : token) (now : time) (col : users_col) :
  (∀ p, Users.token_subject token jwt_decode JWT_SECRET JWT_ALGORITHM tok now ≠ inl p) →
  Users.get_current_user token jwt_decode JWT_SECRET JWT_ALGORITHM tok now col
  = HTTPException 401 "Invalid token.".
Proof.
  intros Hrefused. unfold Users.get_current_user.
  destruct (Users.token_subject _ _ _ _ _ _) as [p|e]; [by destruct (Hrefused p)|done].
Qed.

(** C6 fails on main.py.  Its [get_current_user] answers an expired token
    with the detail "Token expired." and a token that does not decode with
    "Invalid token.": the client can tell the two apart.  (The handler of
    app/routes/users.py answers both alike.) *)
Theorem main_get_current_user_tells_expired_apart (expired malformed : token)
    (now : time) (col : users_col) :
  jwt_decode expired JWT_SECRET [JWT_ALGORITHM] now = JwtRaised ExpiredSignatureError →
  jwt_decode malformed JWT_SECRET [JWT_ALGORITHM] now = JwtRaised DecodeError →
  Main.get_current_user token jwt_decode JWT_SECRET JWT_ALGORITHM expired now col
    = HTTPException 401 "Token expired."
  ∧ Main.get_current_user token jwt_decode JWT_SECRET JWT_ALGORITHM malformed now col
    = HTTPException 401 "Invalid token."
  ∧ Users.get_current_user token jwt_decode JWT_SECRET JWT_ALGORITHM expired now col
    = Users.get_current_user token jwt_decode JWT_SECRET JWT_ALGORITHM malformed now col.
Proof.
  intros Hexp Hmal.
  unfold Main.get_current_user, Main.token_subject, Users.get_current_user,
    Users.token_subject, decode_jwt_token.
  by rewrite Hexp, Hmal.
Qed.

End RefusedTokens.

Lemma main_get_current_user_tells_expired_apart_witness :
  let expired := Utils.create_jwt_token SymbolicJwt.token SymbolicJwt.encode
                   (py "secret") (py "HS256") 60%Z (py "+919876543210") 1000%Z in
  let malformed := SymbolicJwt.Garbage (py "not.a.token") in
  Main.get_current_user SymbolicJwt.token SymbolicJwt.decode (py "secret")
    (py "HS256") expired 5000%Z ∅
  ≠ Main.get_current_user SymbolicJwt.token SymbolicJwt.decode (py "secret")
      (py "HS256") malformed 5000%Z ∅.
Proof.
  intros expired malformed.
  destruct (main_get_current_user_tells_expired_apart SymbolicJwt.token
              SymbolicJwt.decode (py "secret") (py "HS256") expired malformed
              5000%Z ∅ eq_refl eq_refl) as (-> & -> & _).
  discriminate.
Defined.

(** ** The gallery of a profile *)

Section Gallery.
Import Utils ProfileService.


Lemma gallery_insert_eq (col : profiles_col) (uid : str) (d : doc) :
  gallery (<[uid := d]> col) uid
  = match d !! "gallery_images" with Some (VList l) => l | _ => [] end.
Proof. unfold gallery. by rewrite lookup_insert_eq. Qed.

(** The document an upsert starts from holds the gallery stored so far. *)
Lemma base_gallery (col : profiles_col) (uid : str) (now : time) :
  match match col !! uid with
        | Some d => d
        | None => ({[ "created_at" := VTime now; "user_id" := VStr uid ]} : doc)
                    ∪ {[ "user_id" := VStr uid ]}
        end !! "gallery_images" with
  | Some (VList l) => l
  | _ => []
  end = gallery col uid.
Proof.
  unfold gallery. destruct (col !! uid) as [d|]; simpl; [done|].
  rewrite lookup_union_None_2; [done| |done].
  rewrite lookup_insert_ne by done. by rewrite lookup_singleton_ne.
Qed.


(** [add_gallery_image] appends the image to the gallery of its user. *)
Lemma add_gallery_image_appends (uid b64_str : str) (now : time)
    (col col' : profiles_col) (r : option doc) :
  add_gallery_image uid b64_str now col = Returns r col' →
  gallery col' uid = gallery col uid ++ [b64_str].
Proof.
  unfold add_gallery_image, update_one_upsert.
  destruct (conflicting _ _ _); [done|].
  rewrite (left_id_L ∅ (∪)).
  pose proof (base_gallery col uid now) as Hbase. unfold push_opt, push.
  destruct (col !! uid) as [d|] eqn:Hd; simpl in *.
  - destruct (d !! "gallery_images") as [[]|] eqn:Hg; try done;
      intros [= _ <-]; rewrite gallery_insert_eq, lookup_insert_eq; by rewrite <- Hbase.
  - rewrite lookup_union_None_2;
      [| by rewrite lookup_insert_ne, lookup_singleton_ne | done].
    intros [= _ <-]. rewrite gallery_insert_eq, lookup_insert_eq. by rewrite <- Hbase.
Qed.

(** [create_or_update_profile] with a [gallery_images] list stores that
    list. *)
Lemma create_or_update_profile_replaces (uid : str) (profile_data : doc)
    (l : list str) (now : time) (col col' : profiles_col) (r : option doc) :
  profile_data !! "gallery_images" = Some (VList l) →
  create_or_update_profile uid profile_data now col = Returns r col' →
  gallery col' uid = l.
Proof.
  intros Hl. unfold create_or_update_profile, update_one_upsert.
  destruct (conflicting _ _ _); [done|]. simpl.
  intros [= _ <-]. rewrite gallery_insert_eq.
  rewrite (lookup_union_Some_l _ _ _ (VList l)); [done|].
  rewrite lookup_insert_ne by done. by apply map_lookup_filter_Some.
Qed.



End Gallery.



(* ===================================================================== *)
(** * Further properties of the code *)
(* ===================================================================== *)

(** ** normalize_phone: the remaining branches *)

Section NormalizeBranches.
Import Utils.

Variable unicode_isdigit : N → bool.
Hypothesis digit_not_space :
  ∀ c, 128 ≤ c → unicode_isdigit c = true → isspace c = false.

Lemma strip_cons_no_space (c : N) (s : str) :
  isspace c = false → strip (c :: s) = c :: rstrip s.
Proof. intros Hc. unfold strip. simpl. rewrite Hc. by apply rstrip_cons. Qed.

(** X1.  A trunk prefix makes no difference: an input with exactly ten digits
    that is not in '+' form is mapped to the same number with and without a
    '0' written in front of it. *)
Theorem normalize_phone_trunk_zero (s : str) :
  startswith (py "+") (strip s) = false →
  length (digits_of unicode_isdigit s) = 10%nat →
  normalize_phone unicode_isdigit (48 :: s) = normalize_phone unicode_isdigit s
  ∧ normalize_phone unicode_isdigit (48 :: s)
    = py "+91" ++ digits_of unicode_isdigit s.
Proof.
  intros Hplus Hlen.
  assert (normalize_phone unicode_isdigit s = py "+91" ++ digits_of unicode_isdigit s)
    as Hs.
  { unfold normalize_phone.
    by rewrite Hplus, (digits_of_strip _ digit_not_space), Hlen. }
  split; [rewrite Hs|]; unfold normalize_phone;
    rewrite (digits_of_strip _ digit_not_space);
    rewrite strip_cons_no_space by done;
    change (digits_of unicode_isdigit (48 :: s))
      with (48 :: digits_of unicode_isdigit s);
    simpl length; rewrite Hlen; reflexivity.
Qed.

(** X2.  An input that is not in '+' form comes back as '+' followed by digit
    characters only; when it holds no digit at all (an empty or blank
    string, letters only) the result is the bare "+". *)
Theorem normalize_phone_digits_only (s : str) :
  startswith (py "+") (strip s) = false →
  (∃ ds, normalize_phone unicode_isdigit s = 43 :: ds
         ∧ Forall (λ c, isdigit unicode_isdigit c = true) ds)
  ∧ (digits_of unicode_isdigit s = [] → normalize_phone unicode_isdigit s = py "+").
Proof.
  intros Hplus. unfold normalize_phone.
  rewrite Hplus, (digits_of_strip _ digit_not_space).
  assert (Forall (λ c, isdigit unicode_isdigit c = true) (digits_of unicode_isdigit s))
    as Hds.
  { apply Forall_forall. intros c Hc. by apply list_elem_of_In, filter_In in Hc as [_ Hc]. }
  split.
  - repeat case_match; eexists; (split; [reflexivity|]);
      repeat (apply Forall_cons; split; [reflexivity|]); try done.
    by apply Forall_drop.
  - intros ->. reflexivity.
Qed.

End NormalizeBranches.

Lemma arabic_indic_not_space (c : N) :
  128 ≤ c → arabic_indic_digits c = true → isspace c = false.
Proof.
  intros Hc H. unfold arabic_indic_digits in H. unfold isspace.
  repeat match goal with
  | |- context [N.leb ?a ?b] => destruct (N.leb_spec a b); try lia
  | |- context [N.eqb ?a ?b] => destruct (N.eqb_spec a b); try lia
  | H : context [N.leb ?a ?b] |- _ => destruct (N.leb_spec a b); try lia
  end; done.
Qed.

Lemma normalize_phone_trunk_zero_witness :
  Utils.normalize_phone arabic_indic_digits (py "098765 43210")
  = Utils.normalize_phone arabic_indic_digits (py "98765 43210")
  ∧ Utils.normalize_phone arabic_indic_digits (py "098765 43210")
    = py "+919876543210".
Proof.
  apply (normalize_phone_trunk_zero arabic_indic_digits arabic_indic_not_space
           (py "98765 43210")); reflexivity.
Defined.

Lemma normalize_phone_digits_only_witness :
  (∃ ds, Utils.normalize_phone arabic_indic_digits (py " (0)12-34 ext. 5 ") = 43 :: ds
         ∧ Forall (λ c, isdigit arabic_indic_digits c = true) ds)
  ∧ (digits_of arabic_indic_digits (py " (0)12-34 ext. 5 ") = [] →
     Utils.normalize_phone arabic_indic_digits (py " (0)12-34 ext. 5 ") = py "+").
Proof.
  apply (normalize_phone_digits_only arabic_indic_digits arabic_indic_not_space
           (py " (0)12-34 ext. 5 ")); reflexivity.
Defined.

(** ** The Users collection: what the writes maintain *)

Section Consistency.
Import Utils Db UserService.

Lemma user_id_not_taken (col : users_col) (uid self : str) :
  user_id_taken col uid self = false →
  ∀ q d, q ≠ self → col !! q = Some d → user_id d ≠ Some uid.
Proof.
  unfold user_id_taken. intros Hfree%bool_decide_eq_false q d Hq Hd Hid.
  apply Hfree, map_Exists_lookup. eauto.
Qed.

(** Storing, under [p], a document for [p] whose [user_id] no other
    document carries keeps the collection consistent. *)
Lemma consistent_insert (col : users_col) (p : str) (d : user_doc) :
  consistent col →
  phone d = p →
  (∀ uid q e, user_id d = Some uid → q ≠ p → col !! q = Some e →
              user_id e ≠ Some uid) →
  (is_verified d = Some true → is_Some (last_login d)) →
  consistent (<[p := d]> col).
Proof.
  intros (Hkey & Huniq & Hlogin) Hp Hfree Hd. split; [|split].
  - intros q e [[<- <-]|[Hne He]]%lookup_insert_Some; eauto.
  - intros q1 q2 e1 e2 uid
      [[<- <-]|[Hne1 He1]]%lookup_insert_Some
      [[<- <-]|[Hne2 He2]]%lookup_insert_Some Hid1 Hid2; try done.
    + destruct (decide (p = q2)) as [|Hne]; [done|]. by destruct (Hfree uid q2 e2).
    + destruct (decide (q1 = p)) as [|Hne]; [done|]. by destruct (Hfree uid q1 e1).
    + eauto.
  - intros q e [[<- <-]|[Hne He]]%lookup_insert_Some; eauto.
Qed.

(** Rewriting the document of [p] without touching its [phone] and
    [user_id]. *)
Lemma consistent_update (col : users_col) (p : str) (d d' : user_doc) :
  consistent col → col !! p = Some d →
  phone d' = phone d → user_id d' = user_id d →
  (is_verified d' = Some true → is_Some (last_login d')) →
  consistent (<[p := d']> col).
Proof.
  intros Hcol Hd Hphone Hid Hlogin. apply consistent_insert; try done.
  - rewrite Hphone. by apply Hcol.
  - intros uid q e Huid Hq He Heid. rewrite Hid in Huid.
    destruct Hcol as (_ & Huniq & _). by destruct (Hq (Huniq q p e d uid He Hd Heid Huid)).
Qed.

Lemma ensure_user_on_send_consistent (p : str) (now : time) (col : users_col) :
  consistent col → consistent (ensure_user_on_send p now col).
Proof.
  intros Hcol. unfold ensure_user_on_send, update_one_upsert.
  destruct (col !! p) as [d|] eqn:Hd.
  - eapply consistent_update; try done. simpl.
    destruct Hcol as (_ & _ & Hlogin). by eapply Hlogin.
  - by apply consistent_insert.
Qed.

(** One store call of [create_or_attach_user_id], whatever its position
    and its generated id. *)
Lemma step_consistent (c : call) (col : users_col) :
  consistent col → consistent (step c col).2.
Proof.
  intros Hcol. unfold step.
  destruct (c_pc c); simpl; try done.
  - destruct (find_one col (c_phone c)) as [d|]; [by destruct (user_id d)|done].
  - unfold insert_one, new_user. simpl.
    destruct (col !! c_phone c) eqn:Hd; [done|].
    destruct (user_id_taken col (c_gen_id c) (c_phone c)) eqn:Hfree; [done|]. simpl.
    apply consistent_insert; simpl; eauto.
    intros uid q e [= <-] Hq He. by eapply user_id_not_taken.
  - unfold update_one_set_user_id.
    destruct (col !! c_phone c) as [d|] eqn:Hd; [|done].
    destruct (user_id_taken col (c_gen_id c) (c_phone c)) eqn:Hfree; [done|]. simpl.
    pose proof Hcol as (Hkey & _ & Hlogin).
    apply consistent_insert; simpl.
    + done.
    + by eapply Hkey.
    + intros uid q e [= <-] Hq He. by eapply user_id_not_taken.
    + by eapply Hlogin.
  - unfold update_one_set_verified.
    destruct (col !! c_phone c) as [d|] eqn:Hd; [|done].
    eapply consistent_update; simpl; eauto.
Qed.

Lemma run_call_consistent (n : nat) (c : call) (col : users_col) :
  consistent col → consistent (run_call n c col).2.
Proof.
  revert c col. induction n as [|n IH]; intros c col Hcol; [done|].
  simpl. pose proof (step_consistent c col Hcol) as Hstep.
  destruct (step c col) as [c' col']. by apply IH.
Qed.

Lemma create_or_attach_user_id_consistent (p : str) (now : time) (gen_id : str)
    (col : users_col) :
  consistent col → consistent (create_or_attach_user_id p now gen_id col).2.
Proof.
  intros Hcol.
  pose proof (run_call_consistent 5 (start p now gen_id) col Hcol) as Hrun.
  by rewrite run_call_alone in Hrun.
Qed.

(** X3.  A consistent collection stays consistent over every history of
    send and verify requests. *)
Theorem serve_all_consistent (rs : list request) (col : users_col) :
  consistent col → consistent (serve_all rs col).
Proof.
  revert col. unfold serve_all.
  induction rs as [|r rs IH]; intros col Hcol; simpl; [done|].
  apply IH. destruct r as [p now|p now gen_id]; simpl.
  - by apply ensure_user_on_send_consistent.
  - by apply create_or_attach_user_id_consistent.
Qed.

(** X4.  A consistent collection stays so over every interleaving of the
    store calls of any invocations of [create_or_attach_user_id], whatever
    their phones and generated ids. *)
Theorem run_consistent (schedule : list nat) (s : system) :
  consistent (store s) → consistent (store (run schedule s)).
Proof.
  revert s. unfold run.
  induction schedule as [|i schedule IH]; intros s Hs; simpl; [done|].
  apply IH. unfold step_call.
  destruct (calls s !! i) as [c|]; [|done].
  pose proof (step_consistent c (store s) Hs) as Hstep.
  by destruct (step c (store s)).
Qed.

Lemma consistent_empty : consistent (∅ : users_col).
Proof. repeat split; intros *; by rewrite lookup_empty. Qed.

End Consistency.

Lemma serve_all_consistent_witness :
  Db.consistent
    (UserService.serve_all
       [UserService.Send (py "+15550001") 100%Z;
        UserService.Verify (py "+15550001") 200%Z (py "65f1c0de0000000000000001");
        UserService.Verify (py "+15550002") 300%Z (py "65f1c0de0000000000000001")] ∅).
Proof. apply (serve_all_consistent _ ∅ consistent_empty). Defined.

Lemma run_consistent_witness :
  Db.consistent
    (UserService.store
       (UserService.run [0; 1; 0; 0; 0; 1; 1; 1]%nat
          {| UserService.calls :=
               [UserService.start (py "+15550001") 200%Z (py "65f1c0de0000000000000001");
                UserService.start (py "+15550001") 201%Z (py "65f1c0de0000000000000002")];
             UserService.store :=
               UserService.ensure_user_on_send (py "+15550001") 100%Z ∅ |})).
Proof.
  apply run_consistent. simpl.
  apply (ensure_user_on_send_consistent _ _ ∅ consistent_empty).
Defined.

(** ** The identity record over a history of requests *)

Section History.
Import Utils Db UserService.

Lemma keeps_refl (d : user_doc) : keeps d d.
Proof. by repeat split. Qed.

Lemma keeps_trans (d1 d2 d3 : user_doc) : keeps d1 d2 → keeps d2 d3 → keeps d1 d3.
Proof.
  intros (Hp1 & Hid1 & Hv1 & Hc1) (Hp2 & Hid2 & Hv2 & Hc2).
  repeat split; eauto. congruence.
Qed.

(** [create_or_attach_user_id] writes to the document of its phone only. *)
Lemma create_or_attach_user_id_frame (p q : str) (now : time) (gen_id : str)
    (col : users_col) :
  q ≠ p → (create_or_attach_user_id p now gen_id col).2 !! q = col !! q.
Proof.
  intros Hq. unfold create_or_attach_user_id, find_one.
  destruct (col !! p) as [d|] eqn:Hd.
  - cbn [snd]. unfold update_one_set_verified, update_one_set_user_id. rewrite Hd.
    destruct (user_id d); [rewrite Hd; by rewrite lookup_insert_ne|].
    destruct (user_id_taken col gen_id p).
    + rewrite Hd. by rewrite lookup_insert_ne.
    + rewrite lookup_insert_eq. by rewrite !lookup_insert_ne.
  - unfold insert_one, new_user. cbn [phone user_id]. rewrite Hd.
    destruct (user_id_taken col gen_id p); cbn [snd]; [done|].
    by rewrite lookup_insert_ne.
Qed.

Lemma serve_keeps (r : request) (col : users_col) (p : str) (d : user_doc) :
  col !! p = Some d → ∃ d', serve r col !! p = Some d' ∧ keeps d d'.
Proof.
  intros Hd. destruct r as [q now|q now gen_id]; simpl.
  - unfold ensure_user_on_send, update_one_upsert.
    destruct (decide (q = p)) as [->|Hq].
    + rewrite Hd, lookup_insert_eq. eexists. split; [done|]. by repeat split.
    + exists d. split; [|apply keeps_refl].
      destruct (col !! q); by rewrite lookup_insert_ne.
  - destruct (decide (q = p)) as [->|Hq].
    + unfold create_or_attach_user_id, find_one. rewrite Hd. cbn [snd].
      unfold update_one_set_verified, update_one_set_user_id. rewrite Hd.
      destruct (user_id d) as [uid|] eqn:Hid.
      * rewrite Hd, lookup_insert_eq. eexists. split; [done|].
        repeat split; simpl; eauto.
      * destruct (user_id_taken col gen_id p).
        -- rewrite Hd, lookup_insert_eq. eexists. split; [done|].
           repeat split; simpl; eauto.
        -- rewrite lookup_insert_eq, lookup_insert_eq. eexists. split; [done|].
           repeat split; simpl; eauto. intros uid. by rewrite Hid.
    + exists d. split; [|apply keeps_refl].
      by rewrite create_or_attach_user_id_frame.
Qed.

(** X5.  Over every history of send and verify requests served one after the
    other, the record of a phone is never removed, its [user_id], once
    assigned, stays the same, a verified record stays verified, and
    [created_at] stays as it was set. *)
Theorem serve_all_keeps_identity (rs : list request) (col : users_col)
    (p : str) (d : user_doc) :
  col !! p = Some d →
  ∃ d', serve_all rs col !! p = Some d'
        ∧ phone d' = phone d
        ∧ (∀ uid, user_id d = Some uid → user_id d' = Some uid)
        ∧ (is_verified d = Some true → is_verified d' = Some true)
        ∧ (∀ t, created_at d = Some t → created_at d' = Some t).
Proof.
  revert col d. unfold serve_all.
  induction rs as [|r rs IH]; intros col d Hd; simpl.
  - exists d. split; [done|]. apply keeps_refl.
  - destruct (serve_keeps r col p d Hd) as (d1 & Hd1 & Hk1).
    destruct (IH _ _ Hd1) as (d2 & Hd2 & Hk2).
    exists d2. split; [done|]. by apply (keeps_trans d d1 d2).
Qed.

End History.

Lemma serve_all_keeps_identity_witness :
  let col := UserService.serve_all
               [UserService.Send (py "+15550001") 100%Z;
                UserService.Verify (py "+15550001") 200%Z
                  (py "65f1c0de0000000000000001")] ∅ in
  let rs := [UserService.Send (py "+15550001") 300%Z;
             UserService.Verify (py "+15550001") 400%Z
               (py "65f1c0de0000000000000002")] in
  ∃ d d', col !! py "+15550001" = Some d
          ∧ Db.user_id d = Some (py "65f1c0de0000000000000001")
          ∧ UserService.serve_all rs col !! py "+15550001" = Some d'
          ∧ Db.user_id d' = Some (py "65f1c0de0000000000000001").
Proof.
  intros col rs.
  assert (∃ d, col !! py "+15550001" = Some d
               ∧ Db.user_id d = Some (py "65f1c0de0000000000000001"))
    as (d & Hd & Hid) by (eexists; split; vm_compute; reflexivity).
  destruct (serve_all_keeps_identity rs col (py "+15550001") d Hd)
    as (d' & Hd' & _ & Hkeep & _).
  exists d, d'. eauto.
Defined.

(** ** Users by [user_id] *)

Section ByUserId.
Import Utils Db UserService Http.

Lemma find_one_by_user_id_Some (col : users_col) (uid p : str) (d : user_doc) :
  find_one_by_user_id col uid = Some (p, d) →
  col !! p = Some d ∧ user_id d = Some uid.
Proof.
  unfold find_one_by_user_id.
  destruct (list_find _ _) as [[i [q e]]|] eqn:Hfind; [|done].
  intros [= -> ->]. apply list_find_Some in Hfind as (Hi & Hid & _).
  split; [|done]. by apply list_elem_of_lookup_2, elem_of_map_to_list in Hi.
Qed.

Lemma find_one_by_user_id_None (col : users_col) (uid : str) :
  find_one_by_user_id col uid = None ↔
  ∀ p d, col !! p = Some d → user_id d ≠ Some uid.
Proof.
  unfold find_one_by_user_id. split.
  - destruct (list_find _ _) eqn:Hfind; [done|]. intros _ p d Hd.
    apply list_find_None in Hfind.
    by apply (proj1 (Forall_forall _ _) Hfind (p, d)), elem_of_map_to_list.
  - intros Hnone. destruct (list_find _ _) as [[i [q e]]|] eqn:Hfind; [|done].
    apply list_find_Some in Hfind as (Hi & Hid & _).
    apply list_elem_of_lookup_2, elem_of_map_to_list in Hi. by destruct (Hnone q e).
Qed.


(** What [create_or_attach_user_id] returns and stores when the generated id
    is carried by no record. *)
Lemma create_or_attach_user_id_fresh (p : str) (now : time) (gen_id : str)
    (col : users_col) :
  (∀ q d, col !! q = Some d → user_id d ≠ Some gen_id) →
  let d' := match col !! p with
            | None => new_user p now gen_id
            | Some d =>
                set_verified_login now
                  (match user_id d with
                   | None => set_user_id gen_id d
                   | Some _ => d
                   end)
            end in
  create_or_attach_user_id p now gen_id col = (Some d', <[p := d']> col).
Proof.
  intros Hfresh. unfold create_or_attach_user_id, find_one.
  destruct (col !! p) as [d|] eqn:Hd.
  - unfold update_one_set_verified, update_one_set_user_id. rewrite Hd.
    destruct (user_id d) as [uid|] eqn:Hid.
    + rewrite Hd. simpl. by rewrite lookup_insert_eq.
    + rewrite user_id_free by done. rewrite lookup_insert_eq. simpl.
      by rewrite lookup_insert_eq, insert_insert_eq.
  - unfold insert_one, new_user. simpl. rewrite Hd. by rewrite user_id_free.
Qed.


(** X8.  [delete_user] removes the one record that carries the id and nothing
    else, after which the id is unknown; for an id that no record carries it
    answers 404 and leaves the collection as it is. *)
Theorem delete_user_spec (uid : str) (col : users_col) :
  consistent col →
  match find_one_by_user_id col uid with
  | Some (p, d) =>
      col !! p = Some d ∧ user_id d = Some uid
      ∧ Anuj.delete_user uid col = (Body (), delete p col)
      ∧ Users.get_user_by_id uid (delete p col) = HTTPException 404 "User not found"
      ∧ Anuj.delete_user uid (delete p col)
        = (HTTPException 404 "User not found.", delete p col)
  | None =>
      (∀ p d, col !! p = Some d → user_id d ≠ Some uid)
      ∧ Anuj.delete_user uid col = (HTTPException 404 "User not found.", col)
  end.
Proof.
  intros Hcol. unfold Anuj.delete_user, delete_one_by_user_id, Users.get_user_by_id.
  destruct (find_one_by_user_id col uid) as [[p d]|] eqn:Hfind.
  - apply find_one_by_user_id_Some in Hfind as [Hd Hid].
    assert (find_one_by_user_id (delete p col) uid = None) as ->.
    { apply find_one_by_user_id_None. intros q e [Hq He]%lookup_delete_Some Heid.
      destruct Hcol as (_ & Huniq & _). by destruct (Hq (Huniq p q d e uid Hd He Hid Heid)). }
    done.
  - split; [|done]. by apply find_one_by_user_id_None.
Qed.

End ByUserId.


Lemma delete_user_spec_witness :
  let col := (UserService.create_or_attach_user_id (py "+15550001") 200%Z
                (py "65f1c0de0000000000000001") ∅).2 in
  Anuj.delete_user (py "65f1c0de0000000000000001") col
    = (Http.Body (), delete (py "+15550001") col)
  ∧ Users.get_user_by_id (py "65f1c0de0000000000000001") (delete (py "+15550001") col)
    = Http.HTTPException 404 "User not found".
Proof.
  intros col.
  pose proof (delete_user_spec (py "65f1c0de0000000000000001") col
                (create_or_attach_user_id_consistent _ _ _ ∅ consistent_empty)) as H.
  assert (Db.find_one_by_user_id col (py "65f1c0de0000000000000001")
          = Some (py "+15550001",
                  UserService.new_user (py "+15550001") 200%Z
                    (py "65f1c0de0000000000000001"))) as Hfound
    by (vm_compute; reflexivity).
  rewrite Hfound in H. destruct H as (_ & _ & Hdel & Hget & _). by split.
Defined.

(** ** The handlers of the verification flow *)

Section Handlers.
Import Utils Db UserService Http Auth.

Variable unicode_isdigit : N → bool.
Variable lower : str → str.
Variable verification_checks_create : str → str → check_outcome.
Variable verifications_create : str → send_outcome.
Variable token : Type.
Variable jwt_encode : claims → str → str → token.
Variable jwt_decode : token → str → list str → time → decoded.
Variable JWT_SECRET JWT_ALGORITHM : str.
Variable JWT_EXPIRES_MINUTES : Z.

(** The token library accepts, before its expiry, a token it issued under
    the configured secret and algorithm. *)
Hypothesis decode_before_expiry :
  ∀ payload (i e now : time),
    iat payload = Some i → exp payload = Some e →
    (i ≤ now)%Z → (now < e)%Z →
    jwt_decode (jwt_encode payload JWT_SECRET JWT_ALGORITHM)
      JWT_SECRET [JWT_ALGORITHM] now = Decoded payload.

Lemma normalize_phone_starts_plus (s : str) :
  ∃ t, normalize_phone unicode_isdigit s = 43 :: t.
Proof.
  unfold normalize_phone.
  destruct (startswith (py "+") (strip s)) eqn:Hplus.
  - by apply startswith_plus.
  - repeat case_match; by eexists.
Qed.

(** X9.  [send_otp] writes the record before it turns to the provider.
    Whatever the provider does, the record of the normalised phone is there
    afterwards with [last_otp_sent_at] = now and with the [user_id],
    [is_verified], [created_at] and [last_login] it had, if it existed; the
    call is answered with 500 when the provider raised, and without the
    provider's configuration in any case. *)
Theorem send_otp_records_first (twilio_configured : bool) (payload_phone : str)
    (now : time) (col : users_col) :
  let p := normalize_phone unicode_isdigit payload_phone in
  let out := send_otp unicode_isdigit twilio_configured verifications_create
               payload_phone now col in
  (∃ d, out.2 !! p = Some d
        ∧ last_otp_sent_at d = Some now
        ∧ match col !! p with
          | Some d0 => keeps d0 d ∧ user_id d = user_id d0
                       ∧ is_verified d = is_verified d0
                       ∧ last_login d = last_login d0
          | None => user_id d = None ∧ is_verified d = Some false
                    ∧ created_at d = Some now
          end)
  ∧ (∀ q, q ≠ p → out.2 !! q = col !! q)
  ∧ (∀ e, send_verification_sms twilio_configured verifications_create p = SendRaised e →
          out.1 = HTTPException 500 ("Twilio error: " ++ e))
  ∧ (twilio_configured = false →
     out.1 = HTTPException 500 "Twilio error: Twilio not configured").
Proof.
  intros p out.
  assert (out.2 = ensure_user_on_send p now col) as Hstore.
  { subst out. unfold send_otp. fold p. by destruct (send_verification_sms _ _ p). }
  rewrite Hstore. split; [|split; [|split]].
  - unfold ensure_user_on_send, update_one_upsert.
    destruct (col !! p) as [d0|]; rewrite lookup_insert_eq; eexists; (split; [done|]).
    + simpl. repeat split; done.
    + done.
  - intros q Hq. unfold ensure_user_on_send, update_one_upsert.
    destruct (col !! p); by rewrite lookup_insert_ne.
  - intros e He. subst out. unfold send_otp. fold p. by rewrite He.
  - intros ->. subst out. by unfold send_otp.
Qed.

(** X10.  Without the provider's configuration no handler verifies anything
    and none writes to the collection, yet they answer differently:
    app/routes/auth.py with 400, anuj.py and main.py with 500. *)
Theorem verify_otp_unconfigured (payload_phone payload_code : str) (now : time)
    (gen_id : str) (col : users_col) :
  Auth.verify_otp unicode_isdigit lower false verification_checks_create token
    jwt_encode JWT_SECRET JWT_ALGORITHM JWT_EXPIRES_MINUTES
    payload_phone payload_code now gen_id col
  = (HTTPException 400 "Verification failed: Twilio not configured", col)
  ∧ Anuj.verify_otp unicode_isdigit lower false verification_checks_create token
      jwt_encode JWT_SECRET JWT_ALGORITHM JWT_EXPIRES_MINUTES
      payload_phone payload_code now gen_id col
    = (HTTPException 500 "Twilio client or Verify service not configured on server.",
       col)
  ∧ Main.verify_otp unicode_isdigit lower false verification_checks_create token
      jwt_encode JWT_SECRET JWT_ALGORITHM JWT_EXPIRES_MINUTES
      payload_phone payload_code now col
    = (HTTPException 500 "Twilio client not configured on server.", col).
Proof. done. Qed.


(** X12.  A token that is still valid does not authenticate a phone without a
    record (one that was deleted, say): both [get_current_user] handlers
    answer 404, not 401. *)
Theorem get_current_user_unknown_phone (payload_phone : str) (issued now : time)
    (col : users_col) :
  (issued ≤ now)%Z → (now < issued + 60 * JWT_EXPIRES_MINUTES)%Z →
  col !! normalize_phone unicode_isdigit payload_phone = None →
  let tok := create_jwt_token token jwt_encode JWT_SECRET JWT_ALGORITHM
               JWT_EXPIRES_MINUTES (normalize_phone unicode_isdigit payload_phone)
               issued in
  Users.get_current_user token jwt_decode JWT_SECRET JWT_ALGORITHM tok now col
    = HTTPException 404 "User not found."
  ∧ Main.get_current_user token jwt_decode JWT_SECRET JWT_ALGORITHM tok now col
    = HTTPException 404 "User not found.".
Proof.
  intros Hle Hlt Hnone.
  destruct (normalize_phone_starts_plus payload_phone) as [t Ht].
  rewrite Ht in *. simpl.
  unfold Users.get_current_user, Users.token_subject, Main.get_current_user,
    Main.token_subject, decode_jwt_token, create_jwt_token.
  erewrite decode_before_expiry; [|reflexivity|reflexivity|done|done].
  simpl. unfold find_one. by rewrite Hnone.
Qed.

(** X14.  The handler of main.py, on approval, marks the record verified with
    [last_login] = now, creating it when the phone has none, and never
    assigns a [user_id]: the [user_id], [created_at] and [last_otp_sent_at]
    of the record are what they were, and absent on a record it creates. *)
Theorem main_verify_otp_approved (payload_phone payload_code : str) (now : time)
    (col : users_col) :
  rejected lower
    (verification_checks_create (normalize_phone unicode_isdigit payload_phone)
       payload_code) = false →
  let p := normalize_phone unicode_isdigit payload_phone in
  let out := Main.verify_otp unicode_isdigit lower true verification_checks_create
               token jwt_encode JWT_SECRET JWT_ALGORITHM JWT_EXPIRES_MINUTES
               payload_phone payload_code now col in
  out.1 = Body (Main.Verified (py "approved")
                  (create_jwt_token token jwt_encode JWT_SECRET JWT_ALGORITHM
                     JWT_EXPIRES_MINUTES p now))
  ∧ (∃ d, out.2 !! p = Some d
          ∧ is_verified d = Some true ∧ last_login d = Some now
          ∧ user_id d = (col !! p) ≫= user_id
          ∧ created_at d = (col !! p) ≫= created_at
          ∧ last_otp_sent_at d = (col !! p) ≫= last_otp_sent_at)
  ∧ (∀ q, q ≠ p → out.2 !! q = col !! q).
Proof.
  intros Happroved p out. fold p in Happroved. subst out. unfold Main.verify_otp. fold p. simpl negb. cbv iota.
  destruct (verification_checks_create p payload_code) as [e|status]; [done|].
  simpl in Happroved. rewrite Happroved. simpl. unfold update_one_upsert.
  split; [done|]. split.
  - destruct (col !! p) as [d0|]; rewrite lookup_insert_eq; eexists; by repeat split.
  - intros q Hq. destruct (col !! p); by rewrite lookup_insert_ne.
Qed.


End Handlers.

(** ** Profiles: what the writes change and what they keep *)

Section Profiles.
Import Utils Http ProfileService ProfileRoutes.

(** The fields every upsert of the service reserves for the insert. *)
Abbreviation reserved uid now :=
  ({[ "created_at" := VTime now; "user_id" := VStr uid ]} : doc).

Lemma reserved_lookup (uid : str) (now : time) (k : string) :
  is_Some (reserved uid now !! k) ↔ k = "created_at" ∨ k = "user_id".
Proof.
  split.
  - intros [v [[<- _]|[_ [<- _]%lookup_singleton_Some]]%lookup_insert_Some]; auto.
  - intros [-> | ->]; [by rewrite lookup_insert_eq|].
    rewrite lookup_insert_ne by done. by rewrite lookup_singleton_eq.
Qed.

Lemma not_conflicting (set : doc) (p : option (string * str)) (on_insert : doc) :
  conflicting set p on_insert = false →
  (∀ k, is_Some (on_insert !! k) → set !! k = None)
  ∧ (∀ field x, p = Some (field, x) → set !! field = None ∧ on_insert !! field = None).
Proof.
  unfold conflicting. intros [Hset Hp]%orb_false_iff. split.
  - intros k Hk. apply bool_decide_eq_false in Hset.
    destruct (set !! k) eqn:Hsk; [|done].
    destruct Hset. exists k. split; apply elem_of_dom; eauto.
  - intros field x ->. apply orb_false_iff in Hp as [H1 H2].
    apply bool_decide_eq_false in H1, H2.
    split; by apply not_elem_of_dom.
Qed.

Lemma push_opt_other (p : option (string * str)) (d d' : doc) (k : string) :
  push_opt p d = Some d' → (∀ field x, p = Some (field, x) → field ≠ k) →
  d' !! k = d !! k.
Proof.
  destruct p as [[field x]|]; simpl; [|by intros [= <-]].
  intros Hpush Hne. specialize (Hne field x eq_refl). unfold push in Hpush.
  destruct (d !! field) as [[]|]; try done; injection Hpush as <-;
    by rewrite lookup_insert_ne.
Qed.

(** An upsert leaves the documents of the other users alone, and in the
    document of its user every field that it reserves for the insert. *)
Lemma update_one_upsert_keeps (col col' : profiles_col) (uid : str) (set : doc)
    (p : option (string * str)) (on_insert : doc) :
  update_one_upsert col uid set p on_insert = Updated col' →
  (∀ u, u ≠ uid → col' !! u = col !! u)
  ∧ (∀ d k, col !! uid = Some d → is_Some (on_insert !! k) →
            col' !! uid ≫= (.!! k) = d !! k)
  ∧ (col !! uid = None → on_insert !! "user_id" = Some (VStr uid) →
     col' !! uid ≫= (.!! "user_id") = Some (VStr uid)).
Proof.
  unfold update_one_upsert.
  destruct (conflicting set p on_insert) eqn:Hconf; [done|].
  apply not_conflicting in Hconf as [Hset Hp].
  destruct (push_opt p _) as [d'|] eqn:Hpush; [|done]. intros [= <-].
  split; [intros u Hu; by rewrite lookup_insert_ne|]. split.
  - intros d k Hd Hk. rewrite lookup_insert_eq. simpl. rewrite Hd in Hpush.
    rewrite (push_opt_other _ _ _ k Hpush).
    + rewrite lookup_union_r; [done|by apply Hset].
    + intros field x Hfield ->. destruct (Hp _ _ Hfield) as [_ Hnone].
      rewrite Hnone in Hk. by destruct Hk.
  - intros Hnone Huid. rewrite lookup_insert_eq. simpl. rewrite Hnone in Hpush.
    rewrite (push_opt_other _ _ _ "user_id" Hpush).
    + rewrite lookup_union_r; [|apply Hset; by rewrite Huid].
      by rewrite (lookup_union_Some_l _ _ _ _ Huid).
    + intros field x Hfield ->. destruct (Hp _ _ Hfield) as [_ Hnone'].
      by rewrite Hnone' in Huid.
Qed.

(** Every write of the service is one upsert that reserves [created_at]
    and [user_id]. *)
Lemma perform_is_upsert (uid : str) (now : time) (w : profile_write)
    (col : profiles_col) :
  store_after col (perform uid now w col) = col
  ∨ ∃ set p, update_one_upsert col uid set p (reserved uid now)
             = Updated (store_after col (perform uid now w col)).
Proof.
  destruct w as [profile_data|b64_str|b64_str]; simpl;
    unfold create_or_update_profile, add_profile_image, add_gallery_image;
    destruct (update_one_upsert _ _ _ _ _) eqn:Hup; simpl; eauto.
Qed.

Lemma perform_keeps (uid : str) (now : time) (w : profile_write)
    (col : profiles_col) (u : str) (k : string) (v : value) :
  k = "created_at" ∨ k = "user_id" →
  col !! u ≫= (.!! k) = Some v →
  store_after col (perform uid now w col) !! u ≫= (.!! k) = Some v.
Proof.
  intros Hk Hv. destruct (perform_is_upsert uid now w col) as [->|(set & p & Hup)]; [done|].
  apply update_one_upsert_keeps in Hup as (Hother & Hsame & _).
  destruct (decide (u = uid)) as [->|Hu]; [|by rewrite Hother].
  destruct (col !! uid) as [d|] eqn:Hd; [|done]. simpl in Hv.
  rewrite (Hsame d k); [done|done|]. by apply reserved_lookup.
Qed.

Lemma perform_owned (uid : str) (now : time) (w : profile_write) (col : profiles_col) :
  owned col → owned (store_after col (perform uid now w col)).
Proof.
  intros Hcol. destruct (perform_is_upsert uid now w col) as [->|(set & p & Hup)]; [done|].
  apply update_one_upsert_keeps in Hup as (Hother & Hsame & Hnew).
  intros u d Hd. destruct (decide (u = uid)) as [->|Hu].
  - destruct (col !! uid) as [d0|] eqn:Hd0.
    + specialize (Hsame d0 "user_id" eq_refl). rewrite Hd in Hsame. simpl in Hsame.
      rewrite Hsame; [by apply Hcol|]. apply reserved_lookup. by right.
    + specialize (Hnew eq_refl). rewrite Hd in Hnew. simpl in Hnew. apply Hnew.
      rewrite lookup_insert_ne by done. by rewrite lookup_singleton_eq.
  - rewrite Hother in Hd by done. by apply Hcol.
Qed.

(** X16.  Over every sequence of profile writes, whatever they carry, the
    [created_at] and the [user_id] field of a stored profile stay what they
    are, and every stored profile keeps naming the user it is stored for. *)
Theorem profile_created_at_and_owner_kept (ws : list (str * time * profile_write))
    (col : profiles_col) :
  (∀ u k v, k = "created_at" ∨ k = "user_id" →
            col !! u ≫= (.!! k) = Some v →
            perform_all ws col !! u ≫= (.!! k) = Some v)
  ∧ (owned col → owned (perform_all ws col)).
Proof.
  revert col. unfold perform_all.
  induction ws as [|[[uid now] w] ws IH]; intros col; simpl; [done|].
  destruct (IH (store_after col (perform uid now w col))) as [IH1 IH2]. split.
  - intros u k v Hk Hv. apply IH1; [done|]. by apply perform_keeps.
  - intros Hcol. apply IH2. by apply perform_owned.
Qed.

(** The document an upsert for [uid] starts from. *)
Abbreviation start_doc col uid now :=
  (match col !! uid with
   | Some d => d
   | None => reserved uid now ∪ {[ "user_id" := VStr uid ]}
   end : doc).

(** X17.  [create_or_update_profile] is a partial update.  When the data carry
    no value for [created_at] and [user_id], the call returns the stored
    document; in it every field the data give a value other than [None]
    has that value, [updated_at] is now, and every other field, the ones
    given as [None] included, is as stored before (on a first write: only
    [created_at] = now and [user_id]). *)
Theorem create_or_update_profile_partial (uid : str) (profile_data : doc)
    (now : time) (col : profiles_col) :
  (∀ k, k = "created_at" ∨ k = "user_id" →
        profile_data !! k = None ∨ profile_data !! k = Some VNone) →
  ∃ d,
    create_or_update_profile uid profile_data now col
      = Returns (Some d) (<[uid := d]> col)
    ∧ get_profile (<[uid := d]> col) uid = Some d
    ∧ d !! "updated_at" = Some (VTime now)
    ∧ (∀ k v, k ≠ "updated_at" → profile_data !! k = Some v → v ≠ VNone →
              d !! k = Some v)
    ∧ (∀ k, k ≠ "updated_at" →
            profile_data !! k = None ∨ profile_data !! k = Some VNone →
            d !! k = start_doc col uid now !! k).
Proof.
  intros Hdata. unfold create_or_update_profile, update_one_upsert.
  set (set := <["updated_at" := VTime now]> (filter _ profile_data)).
  assert (∀ k, k ≠ "updated_at" →
               set !! k = match profile_data !! k with
                          | Some VNone | None => None
                          | Some v => Some v
                          end) as Hset.
  { intros k Hk. subst set. rewrite lookup_insert_ne by done.
    destruct (profile_data !! k) as [v|] eqn:Hv.
    - destruct (decide (v = VNone)) as [->|Hne].
      + apply map_lookup_filter_None. right. intros v' Hv'.
        rewrite Hv in Hv'. injection Hv' as <-. simpl. tauto.
      + transitivity (Some v); [|by destruct v].
        by apply map_lookup_filter_Some.
    - apply map_lookup_filter_None. by left. }
  assert (conflicting set None (reserved uid now) = false) as ->.
  { unfold conflicting. rewrite orb_false_r. apply bool_decide_eq_false.
    intros (k & [v Hk]%elem_of_dom & Hres%elem_of_dom%reserved_lookup).
    assert (k ≠ "updated_at") as Hne by (by destruct Hres as [-> | ->]).
    rewrite (Hset k Hne) in Hk. by destruct (Hdata k Hres) as [Hd | Hd]; rewrite Hd in Hk. }
  simpl. rewrite lookup_insert_eq. eexists. split; [reflexivity|].
  split; [apply lookup_insert_eq|].
  split; [apply lookup_union_Some_l; subst set; apply lookup_insert_eq|]. split.
  - intros k v Hk Hv Hne. apply lookup_union_Some_l. rewrite (Hset k Hk), Hv.
    by destruct v.
  - intros k Hk Hnone. rewrite lookup_union_r; [done|].
    rewrite (Hset k Hk). by destruct Hnone as [-> | ->].
Qed.

(** X18.  [add_profile_image] always succeeds; it stores the image and the time
    of the call and leaves every other field as it is. *)
Theorem add_profile_image_spec (uid b64_str : str) (now : time) (col : profiles_col) :
  ∃ d,
    add_profile_image uid b64_str now col = Returns (Some d) (<[uid := d]> col)
    ∧ d !! "profile_image" = Some (VStr b64_str)
    ∧ d !! "updated_at" = Some (VTime now)
    ∧ (∀ k, k ≠ "profile_image" → k ≠ "updated_at" →
            d !! k = start_doc col uid now !! k)
    ∧ gallery (<[uid := d]> col) uid = gallery col uid.
Proof.
  unfold add_profile_image, update_one_upsert.
  assert (conflicting {[ "profile_image" := VStr b64_str; "updated_at" := VTime now ]}
            None (reserved uid now) = false) as -> by reflexivity.
  simpl. unfold get_profile. rewrite lookup_insert_eq.
  eexists. split; [reflexivity|].
  split; [apply lookup_union_Some_l, lookup_insert_eq|].
  split; [apply lookup_union_Some_l; rewrite lookup_insert_ne by done;
          apply lookup_singleton_eq|].
  assert (∀ k, k ≠ "profile_image" → k ≠ "updated_at" →
     (({[ "profile_image" := VStr b64_str; "updated_at" := VTime now ]} : doc)
        ∪ start_doc col uid now) !! k = start_doc col uid now !! k) as Hframe.
  { intros k H1 H2. rewrite lookup_union_r; [done|].
    rewrite lookup_insert_ne by done. by rewrite lookup_singleton_ne. }
  split; [done|].
  rewrite gallery_insert_eq, Hframe by done. apply base_gallery.
Qed.

(** X19.  [add_gallery_image] touches the gallery only.  It is refused exactly
    when the stored [gallery_images] is a value that is no array; otherwise
    it appends the image and leaves every other field, [updated_at]
    included, as it is. *)
Theorem add_gallery_image_spec (uid b64_str : str) (now : time) (col : profiles_col) :
  match start_doc col uid now !! "gallery_images" with
  | Some (VList _) | None =>
      ∃ d, add_gallery_image uid b64_str now col = Returns (Some d) (<[uid := d]> col)
           ∧ d !! "gallery_images" = Some (VList (gallery col uid ++ [b64_str]))
           ∧ (∀ k, k ≠ "gallery_images" → d !! k = start_doc col uid now !! k)
  | Some _ => add_gallery_image uid b64_str now col = Raises
  end.
Proof.
  pose proof (base_gallery col uid now) as Hgal.
  unfold add_gallery_image, update_one_upsert.
  assert (conflicting ∅ (Some ("gallery_images", b64_str)) (reserved uid now) = false)
    as -> by reflexivity.
  rewrite (left_id_L ∅ (∪)). unfold push_opt, push.
  destruct (start_doc col uid now !! "gallery_images") as [[]|] eqn:Hg; try done;
    simpl; unfold get_profile; rewrite lookup_insert_eq;
    (eexists; split; [reflexivity|]);
    (split; [rewrite lookup_insert_eq; by rewrite <- Hgal
            |intros k Hk; by rewrite lookup_insert_ne]).
Qed.

(** X20.  Deleting a profile by its user.  For a user with a profile the
    handler answers with success and removes that profile only; afterwards
    the profile is not found, a second deletion is answered with 404, and a
    gallery image added later starts a new gallery.  For a user without a
    profile the handler answers 404 and changes nothing. *)
Theorem delete_profile_by_userid_spec (uid b64_str : str) (now : time)
    (col : profiles_col) :
  match col !! uid with
  | Some _ =>
      delete_profile_by_userid uid col = (Body (), delete uid col)
      ∧ get_profile_by_userid uid (delete uid col) = HTTPException 404 "Profile not found"
      ∧ delete_profile_by_userid uid (delete uid col)
        = (HTTPException 404 "Profile not found", delete uid col)
      ∧ (∀ u, u ≠ uid → delete uid col !! u = col !! u)
      ∧ gallery (store_after (delete uid col)
                   (add_gallery_image uid b64_str now (delete uid col))) uid
        = [b64_str]
  | None =>
      delete_profile_by_userid uid col = (HTTPException 404 "Profile not found", col)
  end.
Proof.
  unfold delete_profile_by_userid, get_profile_by_userid, delete_profile, get_profile.
  destruct (col !! uid) as [d|] eqn:Hd.
  - rewrite lookup_delete_eq.
    rewrite (bool_decide_eq_true_2 (is_Some (Some d))) by eauto.
    rewrite (bool_decide_eq_false_2 (is_Some None)) by (by intros [? ?]).
    rewrite delete_delete_eq. simpl.
    repeat split; [intros u Hu; by rewrite lookup_delete_ne|].
    assert (gallery (delete uid col) uid = []) as Hempty
      by (unfold gallery; by rewrite lookup_delete_eq).
    destruct (add_gallery_image uid b64_str now (delete uid col))
      as [r col'|] eqn:Hrun; simpl.
    + by rewrite (add_gallery_image_appends _ _ _ _ _ _ Hrun), Hempty.
    + exfalso. unfold add_gallery_image, update_one_upsert in Hrun.
      assert (conflicting ∅ (Some ("gallery_images", b64_str)) (reserved uid now) = false)
        as Hfree by reflexivity.
      rewrite Hfree, lookup_delete_eq, (left_id_L ∅ (∪)) in Hrun.
      unfold push_opt, push in Hrun.
      rewrite lookup_union_None_2 in Hrun;
        [done|by rewrite lookup_insert_ne, lookup_singleton_ne|done].
  - rewrite (bool_decide_eq_false_2 (is_Some None)) by (by intros [? ?]).
    simpl. by rewrite delete_id.
Qed.

End Profiles.

(** ** Instances *)

Lemma one_pending_record_fresh (gen_id : str) :
  ∀ q d, UserService.ensure_user_on_send (py "+919876543210") 900%Z ∅ !! q = Some d →
         Db.user_id d ≠ Some gen_id.
Proof.
  intros q d Hq. unfold UserService.ensure_user_on_send, Db.update_one_upsert in Hq.
  rewrite lookup_empty in Hq.
  apply lookup_insert_Some in Hq as [[_ <-]|[_ Hq]]; [done|].
  by rewrite lookup_empty in Hq.
Qed.


Lemma get_current_user_unknown_phone_witness :
  let tok := Utils.create_jwt_token SymbolicJwt.token SymbolicJwt.encode
               (py "secret") (py "HS256") 60%Z
               (Utils.normalize_phone no_unicode_digits (py "98765 43210")) 1000%Z in
  Users.get_current_user SymbolicJwt.token SymbolicJwt.decode (py "secret")
    (py "HS256") tok 2000%Z ∅
  = Http.HTTPException 404 "User not found.".
Proof.
  intros tok.
  apply (get_current_user_unknown_phone no_unicode_digits SymbolicJwt.token
           SymbolicJwt.encode SymbolicJwt.decode (py "secret") (py "HS256") 60%Z
           (symbolic_decode_before_expiry (py "secret") (py "HS256"))
           (py "98765 43210") 1000%Z 2000%Z ∅); [lia|lia|reflexivity].
Defined.

Lemma main_verify_otp_approved_witness :
  let provider := λ (_ _ : str), Auth.CheckReturned (Some (py "approved")) in
  ∃ d, (Main.verify_otp no_unicode_digits ascii_lower true provider SymbolicJwt.token
          SymbolicJwt.encode (py "secret") (py "HS256") 60%Z
          (py "98765 43210") (py "123456") 1000%Z ∅).2 !! py "+919876543210" = Some d
       ∧ Db.is_verified d = Some true
       ∧ Db.user_id d = None
       ∧ Db.created_at d = None.
Proof.
  intros provider.
  destruct (main_verify_otp_approved no_unicode_digits ascii_lower provider
              SymbolicJwt.token SymbolicJwt.encode (py "secret") (py "HS256") 60%Z
              (py "98765 43210") (py "123456") 1000%Z ∅ eq_refl)
    as (_ & (d & Hd & Hver & _ & Hid & Hcreated & _) & _).
  exists d. repeat split; done.
Defined.


Lemma create_or_update_profile_partial_witness :
  let data : ProfileService.doc :=
    {[ "full_name" := ProfileService.VStr (py "Asha");
       "gotra" := ProfileService.VNone;
       "user_id" := ProfileService.VNone ]} in
  let col := ProfileService.store_after ∅
               (ProfileService.create_or_update_profile (py "u1")
                  {[ "gotra" := ProfileService.VStr (py "Kashyap") ]} 1%Z ∅) in
  ∃ d, ProfileService.create_or_update_profile (py "u1") data 2%Z col
       = ProfileService.Returns (Some d) (<[py "u1" := d]> col)
       ∧ d !! "full_name" = Some (ProfileService.VStr (py "Asha"))
       ∧ d !! "gotra" = Some (ProfileService.VStr (py "Kashyap"))
       ∧ d !! "created_at" = Some (ProfileService.VTime 1%Z)
       ∧ d !! "updated_at" = Some (ProfileService.VTime 2%Z).
Proof.
  intros data col.
  destruct (create_or_update_profile_partial (py "u1") data 2%Z col)
    as (d & Hrun & _ & Hupd & Hset & Hkeep).
  - intros k [-> | ->]; [by left|by right].
  - exists d. split; [done|].
    split; [by apply Hset|].
    split; [rewrite Hkeep; [done|done|by right]|].
    split; [rewrite Hkeep; [done|done|by left]|done].
Defined.

Lemma users_get_current_user_uniform_witness :
  let expired := Utils.create_jwt_token SymbolicJwt.token SymbolicJwt.encode
                   (py "secret") (py "HS256") 60%Z (py "+919876543210") 1000%Z in
  let forged := SymbolicJwt.Signed (py "HS256")
                  {| Utils.sub := Some (py "+919876543210"); Utils.iat := Some 1000%Z;
                     Utils.exp := Some 9000%Z |} (py "guess") in
  Users.get_current_user SymbolicJwt.token SymbolicJwt.decode (py "secret")
    (py "HS256") expired 5000%Z ∅
  = Users.get_current_user SymbolicJwt.token SymbolicJwt.decode (py "secret")
      (py "HS256") forged 5000%Z ∅.
Proof.
  intros expired forged.
  transitivity (Http.HTTPException (A := Users.user_response) 401 "Invalid token.").
  - apply (users_get_current_user_uniform SymbolicJwt.token SymbolicJwt.decode
             (py "secret") (py "HS256") expired 5000%Z ∅).
    intros p. discriminate.
  - symmetry.
    apply (users_get_current_user_uniform SymbolicJwt.token SymbolicJwt.decode
             (py "secret") (py "HS256") forged 5000%Z ∅).
    intros p. discriminate.
Defined.

Lemma new_phone_race_converges_witness :
  let p := py "+15550001" in
  let args := [(200%Z, py "65f1c0de0000000000000001");
               (201%Z, py "65f1c0de0000000000000002");
               (202%Z, py "65f1c0de0000000000000003")] in
  let s := UserService.run [0; 1; 2; 1; 2; 0; 2; 1; 0; 2; 1; 0]%nat
             {| UserService.calls := map (λ a, UserService.start p a.1 a.2) args;
                UserService.store := ∅ |} in
  (∀ i r, UserService.result s i = Some r →
          ∃ d uid, r = Some d ∧ Db.user_id d = Some uid
                   ∧ UserService.stored_user_id (UserService.store s) p = Some uid)
  ∧ (∀ uid, UserService.stored_user_id (UserService.store s) p = Some uid →
            UserService.stored_user_id
              (UserService.store (UserService.run [2; 2; 1]%nat s)) p = Some uid).
Proof.
  intros p args s.
  apply (new_phone_race_converges p args ∅ [0; 1; 2; 1; 2; 0; 2; 1; 0; 2; 1; 0]%nat
           [2; 2; 1]%nat).
  - reflexivity.
  - intros now gen_id q d _. by rewrite lookup_empty.
Defined.

(** ** Verification and the [user_id] *)

(** C2 fails on the code, in two places.  The handler of main.py, for an
    approved code and a phone without a record, creates a verified record
    that has no [user_id], and its answer carries none.  And in
    [create_or_attach_user_id], when a send for the same phone lands between
    the first [find_one] and [insert_one], the insert is refused and the
    record read back and returned is the unverified one the send created,
    still without a [user_id]. *)
Theorem approved_verification_without_user_id :
  let p := py "+15550001" in
  let provider := λ (_ _ : str), Auth.CheckReturned (Some (py "approved")) in
  let out := Main.verify_otp no_unicode_digits ascii_lower true provider
               SymbolicJwt.token SymbolicJwt.encode (py "secret") (py "HS256") 60%Z
               p (py "123456") 200%Z ∅ in
  let found := UserService.step
                 (UserService.start p 200%Z (py "65f1c0de0000000000000001")) ∅ in
  let sent := UserService.ensure_user_on_send p 201%Z found.2 in
  let done := UserService.run_call 2 found.1 sent in
  (∃ tok, out.1 = Http.Body (Main.Verified (py "approved") tok))
  ∧ out.2 !! p
    = Some {| Db.phone := p; Db.user_id := None; Db.is_verified := Some true;
              Db.created_at := None; Db.last_otp_sent_at := None;
              Db.last_login := Some 200%Z |}
  ∧ UserService.c_pc found.1 = UserService.AtInsert
  ∧ UserService.c_pc done.1
    = UserService.Returned
        (Some {| Db.phone := p; Db.user_id := None; Db.is_verified := Some false;
                 Db.created_at := Some 201%Z; Db.last_otp_sent_at := Some 201%Z;
                 Db.last_login := None |})
  ∧ UserService.stored_user_id done.2 p = None.
Proof.
  intros p provider out found sent done.
  split; [eexists; vm_compute; reflexivity|].
  repeat split; vm_compute; reflexivity.
Qed.

(** X21.  Run without interference and with a generated id that no record
    carries, [create_or_attach_user_id] returns the record it leaves stored
    for the phone: the fresh record with the generated id when the phone had
    none; otherwise the stored record with [is_verified] true and
    [last_login] = now, with its own [user_id] if it had one and the
    generated id if it had none, and with [created_at] and
    [last_otp_sent_at] as they were.  No other record changes. *)
Theorem create_or_attach_user_id_alone (p : str) (now : Utils.time) (gen_id : str)
    (col : gmap str Db.user_doc) :
  (∀ q d, col !! q = Some d → Db.user_id d ≠ Some gen_id) →
  let d' :=
    match col !! p with
    | None =>
        {| Db.phone := p; Db.user_id := Some gen_id; Db.is_verified := Some true;
           Db.created_at := Some now; Db.last_otp_sent_at := None;
           Db.last_login := Some now |}
    | Some d =>
        {| Db.phone := Db.phone d;
           Db.user_id := Some (default gen_id (Db.user_id d));
           Db.is_verified := Some true;
           Db.created_at := Db.created_at d;
           Db.last_otp_sent_at := Db.last_otp_sent_at d;
           Db.last_login := Some now |}
    end in
  UserService.create_or_attach_user_id p now gen_id col = (Some d', <[p := d']> col).
Proof.
  intros Hfresh d'. subst d'.
  rewrite (create_or_attach_user_id_fresh p now gen_id col Hfresh). cbv zeta.
  destruct (col !! p) as [d|]; [|reflexivity].
  unfold Db.set_verified_login, Db.set_user_id.
  destruct (Db.user_id d) as [uid|] eqn:Hid; simpl; rewrite ?Hid; reflexivity.
Qed.

Lemma create_or_attach_user_id_alone_witness :
  let p := py "+919876543210" in
  let col := UserService.ensure_user_on_send p 900%Z ∅ in
  let d' := {| Db.phone := p; Db.user_id := Some (py "65f1c0de0000000000000001");
               Db.is_verified := Some true; Db.created_at := Some 900%Z;
               Db.last_otp_sent_at := Some 900%Z; Db.last_login := Some 1000%Z |} in
  UserService.create_or_attach_user_id p 1000%Z (py "65f1c0de0000000000000001") col
  = (Some d', <[p := d']> col).
Proof.
  intros p col d'.
  apply (create_or_attach_user_id_alone p 1000%Z (py "65f1c0de0000000000000001") col).
  apply one_pending_record_fresh.
Defined.
